(** * wrfcloud: WRF output to GeoJSON (runtime/tools/geojson.py)

    A shallow embedding of the converter [GeoJson] and of the batch
    driver [_automate_products], with the properties of the
    geometry pipeline stated over it.

    Python values are modelled as follows.
    - [int] is [Z]; a [float] is an element of a type [F] carrying the
      operations of class [PyFloat]; the instance [Binary64] interprets
      them on IEEE 754 binary64 numbers.
    - An exception is a value of [exn]; a computation that may raise
      has type [result A].
    - A [list] or the first axis of an array is a [list]; indexing
      follows Python (negative indices count from the end, anything
      else out of range raises [IndexError]), and on an array numpy
      (an index out of range that takes 64 bits unsigned, but not
      signed, raises [OverflowError]).
    - A [dict] with string keys is a [gmap string _]. *)

From Stdlib Require Import ZArith QArith Qround Floats String Ascii List Lia Bool.
From Stdlib Require Import DecimalString DecimalZ.
From stdpp Require Import base option list gmap strings.
Import ListNotations.
Set Warnings "-register-all".

Local Open Scope string_scope.
Local Open Scope Z_scope.

(** ** Exceptions and results *)

Inductive exn :=
| IndexError
| KeyError (key : string)
| ValueError
| OverflowError
| TypeError
| OSError
| JSONDecodeError
| MemoryError.

Inductive result (A : Type) :=
| Ok (a : A)
| Raise (e : exn).
Arguments Ok {A} a.
Arguments Raise {A} e.

Definition bind {A B} (m : result A) (k : A → result B) : result B :=
  match m with
  | Ok a => k a
  | Raise e => Raise e
  end.

Declare Scope py_scope.
Delimit Scope py_scope with py.
Notation "'let*' x ':=' m 'in' k" := (bind m (fun x => k))
  (at level 10, x pattern, m at level 100, k at level 200) : py_scope.
Local Open Scope py_scope.

Definition is_ok {A} (r : result A) : bool :=
  match r with Ok _ => true | Raise _ => false end.

(** ** Sequences *)

(** [l[i]] for a Python list or tuple. *)
Definition py_index {A} (l : list A) (i : Z) : result A :=
  let n := Z.of_nat (length l) in
  let j := if i <? 0 then i + n else i in
  if (0 <=? j) && (j <? n) then
    match l !! Z.to_nat j with
    | Some a => Ok a
    | None => Raise IndexError
    end
  else Raise IndexError.

(** [len(range(lo, hi, step))], as CPython computes it. *)
Definition range_length (lo hi step : Z) : Z :=
  if 0 <? step then
    (if lo <? hi then (hi - lo - 1) / step + 1 else 0)
  else
    (if hi <? lo then (lo - hi - 1) / (- step) + 1 else 0).

(** [list(range(lo, hi, step))]; a zero step raises [ValueError]. *)
Definition py_range (lo hi step : Z) : result (list Z) :=
  if step =? 0 then Raise ValueError
  else Ok (map (fun k => lo + Z.of_nat k * step)
               (seq 0 (Z.to_nat (range_length lo hi step)))).

(** ** Floating-point numbers *)

(** What a float denotes: a rational when it is finite. *)
Inductive fvalue :=
| Finite (q : Q)
| Infinite
| NaN.

(** The operations on floats that the converter uses.  [of_int] is the
    promotion of an [int] operand in mixed arithmetic, [int_truediv] is
    [/] on two [int]s, [round5 x] is [round(x, 5)], [frepr] is [repr]
    (what [str] of a list prints for an element) and [float_of_string]
    is [float] applied to the text of a number. *)
Class PyFloat (F : Type) := {
  fadd : F → F → F;
  fsub : F → F → F;
  fmul : F → F → F;
  of_int : Z → F;
  int_truediv : Z → Z → F;
  fval : F → fvalue;
  round5 : F → F;
  frepr : F → string;
  float_of_string : string → option F
}.

(** Truncation of a rational toward zero. *)
Definition Qtrunc (q : Q) : Z := Z.quot (Qnum q) (Z.pos (Qden q)).

Section Floats.
Context {F : Type} `{PyFloat F}.

(** [int(x)]: truncation toward zero; [nan] and the infinities raise. *)
Definition py_int (x : F) : result Z :=
  match fval x with
  | Finite q => Ok (Qtrunc q)
  | Infinite => Raise OverflowError
  | NaN => Raise ValueError
  end.

(** [n == x] for an [int] [n] and a float [x]: Python compares the
    exact values. *)
Definition int_eq_float (n : Z) (x : F) : bool :=
  match fval x with
  | Finite q => Qeq_bool (inject_Z n) q
  | _ => false
  end.

End Floats.

(** ** Arrays *)

(** A numpy array: a number, or the list of its sub-arrays along the
    first axis.  A two-dimensional array lists its rows.  Masks are not
    modelled. *)
Inductive ndarray (F : Type) :=
| Scalar (v : F)
| Axis (items : list (ndarray F)).
Arguments Scalar {F} v.
Arguments Axis {F} items.

(** What numpy raises for an index [i] that is out of range.  numpy
    converts an [int] index to a C [long], of 64 bits: from [2**63] to
    [2**64 - 1] the conversion raises [OverflowError]; beyond, on
    either side, the [int] is not taken for an integer index at all,
    which is an [IndexError], as is an index that fits and is out of
    range. *)
Definition nd_index_error (i : Z) : exn :=
  if (9223372036854775808 <=? i) && (i <? 18446744073709551616)
  then OverflowError
  else IndexError.

(** [a[i]]: as for a list when [i] is in range, negative indices
    counting from the end.  (An axis is shorter than [2**63], so that
    an index that does not fit a C [long] is never in range.) *)
Definition nd_index {F} (a : ndarray F) (i : Z) : result (ndarray F) :=
  match a with
  | Axis items =>
      match py_index items i with
      | Ok item => Ok item
      | Raise _ => Raise (nd_index_error i)
      end
  | Scalar _ => Raise IndexError
  end.

(** [a - c], element by element. *)
Fixpoint nd_map {F} (f : F → F) (a : ndarray F) : ndarray F :=
  match a with
  | Scalar v => Scalar (f v)
  | Axis items => Axis (map (nd_map f) items)
  end.

(** The two-dimensional array with the given rows. *)
Definition nd_of_rows {F} (rows : list (list F)) : ndarray F :=
  Axis (map (fun row => Axis (map Scalar row)) rows).

(** ** GeoJson._grid_to_lonlat and GeoJson._polygon_to_coord_array *)

Section Mapper.
Context {F : Type} `{PyFloat F}.

(** [g[y][x]], read as a number.  The arithmetic of the mapper is
    modelled on numbers only: an element that is itself an array is
    outside the model and is answered by [TypeError]. *)
Definition grid_get (g : ndarray F) (y x : Z) : result F :=
  let* row := nd_index g y in
  let* e := nd_index row x in
  match e with
  | Scalar v => Ok v
  | Axis _ => Raise TypeError
  end.

Definition _grid_to_lonlat (grid_lat grid_lon : ndarray F) (x y : F) : result (F * F) :=
  (* get the integer grid indices *)
  let* x1 := py_int x in
  let* y1 := py_int y in
  let* x2 := (if negb (int_eq_float x1 (round5 x))
              then let* i := py_int x in Ok (i + 1)
              else Ok x1) in
  let* y2 := (if negb (int_eq_float y1 (round5 y))
              then let* i := py_int y in Ok (i + 1)
              else Ok y1) in
  (* get bounding lat/lon values for a linear interpolation *)
  let* lat1 := grid_get grid_lat y1 x1 in
  let* lon1 := grid_get grid_lon y1 x1 in
  let* lat2 := grid_get grid_lat y2 x2 in
  let* lon2 := grid_get grid_lon y2 x2 in
  (* get the x and y grid value fractions for a linear interpolation *)
  let x_frac := fsub x (of_int x1) in
  let y_frac := fsub y (of_int y1) in
  (* compute lat/lon values with a linear interpolation *)
  let lat := fadd lat1 (fmul (fsub lat2 lat1) y_frac) in
  let lon := fadd lon1 (fmul (fsub lon2 lon1) x_frac) in
  Ok (round5 lon, round5 lat).

(** The loop of [_polygon_to_coord_array]: [points] is the list built
    so far; a point of the polygon is the pair [(point[0], point[1])]. *)
Fixpoint polygon_points (grid_lat grid_lon : ndarray F) (polygon : list (F * F))
    (points : list (F * F)) : result (list (F * F)) :=
  match polygon with
  | [] => Ok points
  | point :: rest =>
      let* lonlat_point := _grid_to_lonlat grid_lat grid_lon (fst point) (snd point) in
      polygon_points grid_lat grid_lon rest (points ++ [lonlat_point])
  end.

Definition _polygon_to_coord_array (grid_lat grid_lon : ndarray F)
    (polygon : list (F * F)) : result (list (F * F)) :=
  polygon_points grid_lat grid_lon polygon [].

End Mapper.

(** ** Text of lists, and json.loads *)

(** [sep.join(items)] *)
Fixpoint py_join (sep : string) (items : list string) : string :=
  match items with
  | [] => EmptyString
  | [s] => s
  | s :: rest => s +:+ sep +:+ py_join sep rest
  end.

(** [str(l)] for a list [l] whose elements print as [items]. *)
Definition str_list (items : list string) : string :=
  "[" +:+ py_join ", " items +:+ "]".

(** The values [json.loads] returns on texts made of arrays and
    numbers. *)
Inductive json (F : Type) :=
| JInt (n : Z)
| JFloat (x : F)
| JArray (items : list (json F)).
Arguments JInt {F} n.
Arguments JFloat {F} x.
Arguments JArray {F} items.

Definition is_ws (c : ascii) : bool :=
  match c with
  | " "%char | "009"%char | "010"%char | "013"%char => true
  | _ => false
  end.

Definition is_digit (c : ascii) : bool :=
  match c with
  | "0"%char | "1"%char | "2"%char | "3"%char | "4"%char
  | "5"%char | "6"%char | "7"%char | "8"%char | "9"%char => true
  | _ => false
  end.

Fixpoint skip_ws (s : string) : string :=
  match s with
  | String c rest => if is_ws c then skip_ws rest else s
  | EmptyString => EmptyString
  end.

(** The longest prefix of digits, and what follows it. *)
Fixpoint span_digits (s : string) : string * string :=
  match s with
  | String c rest =>
      if is_digit c then
        let '(ds, r) := span_digits rest in (String c ds, r)
      else (EmptyString, s)
  | EmptyString => (EmptyString, EmptyString)
  end.

(** The three groups of the scanner's number pattern: an integer (an
    optional minus sign, then either 0 or a digit from 1 to 9 followed
    by digits), an optional fraction (a dot and at least one digit) and
    an optional exponent (e or E, an optional sign and at least one
    digit).  An optional group that does not match is the empty text. *)
Definition scan_integer (s : string) : option (string * string) :=
  let '(sign, s1) := match s with
                     | String c r => if Ascii.eqb c "-" then ("-", r) else (EmptyString, s)
                     | EmptyString => (EmptyString, s)
                     end in
  match s1 with
  | String c r =>
      if Ascii.eqb c "0" then Some (sign +:+ "0", r)
      else if is_digit c then
        let '(ds, r') := span_digits r in Some (sign +:+ String c ds, r')
      else None
  | EmptyString => None
  end.

Definition scan_frac (s : string) : string * string :=
  match s with
  | String c r =>
      if Ascii.eqb c "." then
        match span_digits r with
        | (EmptyString, _) => (EmptyString, s)
        | (ds, r') => (String c ds, r')
        end
      else (EmptyString, s)
  | EmptyString => (EmptyString, s)
  end.

Definition scan_sign (s : string) : string * string :=
  match s with
  | String c r =>
      if (Ascii.eqb c "-" || Ascii.eqb c "+")%bool then (String c EmptyString, r)
      else (EmptyString, s)
  | EmptyString => (EmptyString, s)
  end.

Definition scan_exp (s : string) : string * string :=
  match s with
  | String c r =>
      if (Ascii.eqb c "e" || Ascii.eqb c "E")%bool then
        let '(sign, r1) := scan_sign r in
        match span_digits r1 with
        | (EmptyString, _) => (EmptyString, s)
        | (ds, r2) => (String c (sign +:+ ds), r2)
        end
      else (EmptyString, s)
  | EmptyString => (EmptyString, s)
  end.

(** [int(text)] for the integer group of a number. *)
Definition int_of_text (s : string) : option Z :=
  option_map Z.of_int (NilZero.int_of_string s).

Section Json.
Context {F : Type} `{PyFloat F}.

(** A number: a float when it has a fraction or an exponent, an
    [int] otherwise. *)
Definition scan_number (s : string) : result (json F * string) :=
  match scan_integer s with
  | None => Raise JSONDecodeError
  | Some (integer, r1) =>
      let '(frac, r2) := scan_frac r1 in
      let '(exp, r3) := scan_exp r2 in
      match frac, exp with
      | EmptyString, EmptyString =>
          match int_of_text integer with
          | Some n => Ok (JInt n, r3)
          | None => Raise JSONDecodeError
          end
      | _, _ =>
          match float_of_string (integer +:+ frac +:+ exp) with
          | Some x => Ok (JFloat x, r3)
          | None => Raise JSONDecodeError
          end
      end
  end.

(** The scanner, on the fragment of JSON that the converter parses:
    arrays and numbers.  [scan_once] reads one value and returns it
    with the rest of the text; [scan_items] is the loop of [JSONArray]
    after the opening bracket of a non-empty array, [values] being the
    items read so far.  Each call reads at least one character, so the
    length of the text bounds the recursion ([fuel]). *)
Fixpoint scan_once (fuel : nat) (s : string) {struct fuel} : result (json F * string) :=
  match fuel with
  | O => Raise JSONDecodeError
  | S n =>
      match s with
      | String c r =>
          if Ascii.eqb c "[" then
            match skip_ws r with
            | String c' r' =>
                if Ascii.eqb c' "]" then Ok (JArray [], r')
                else scan_items n (String c' r') []
            | EmptyString => scan_items n EmptyString []
            end
          else scan_number s
      | EmptyString => scan_number s
      end
  end
with scan_items (fuel : nat) (s : string) (values : list (json F)) {struct fuel}
    : result (json F * string) :=
  match fuel with
  | O => Raise JSONDecodeError
  | S n =>
      let* (value, r) := scan_once n s in
      match skip_ws r with
      | String c r' =>
          if Ascii.eqb c "]" then Ok (JArray (values ++ [value]), r')
          else if Ascii.eqb c "," then scan_items n (skip_ws r') (values ++ [value])
          else Raise JSONDecodeError
      | EmptyString => Raise JSONDecodeError
      end
  end.

(** [json.loads(s)]: one value, surrounded by optional white space,
    and nothing after it. *)
Definition json_loads (s : string) : result (json F) :=
  let* (value, r) := scan_once (S (String.length s)) (skip_ws s) in
  match skip_ws r with
  | EmptyString => Ok value
  | _ => Raise JSONDecodeError
  end.

(** ** GeoJson._polygon_and_holes_to_multi_polygon *)

(** [str([point[0], point[1]])] *)
Definition str_point (point : F * F) : string :=
  str_list [frepr (fst point); frepr (snd point)].

(** [str([[point[0], point[1]] for point in polygon])] *)
Definition str_polygon (polygon : list (F * F)) : string :=
  str_list (map str_point polygon).

Fixpoint append_holes (mp_str : string) (holes : list (list (F * F))) : string :=
  match holes with
  | [] => mp_str
  | hole :: rest => append_holes (mp_str +:+ "," +:+ str_polygon hole) rest
  end.

Definition _polygon_and_holes_to_multi_polygon (polygon : list (F * F))
    (holes : list (list (F * F))) : string :=
  let mp_str := str_polygon polygon in
  let mp_str := append_holes mp_str holes in
  "[" +:+ mp_str +:+ "]".

End Json.

(** ** The converter and what it runs on *)

Section Converter.
Context {F : Type} `{PyFloat F}.

(** The fields of a [GeoJson] object that [__init__] sets from its
    arguments: [value_min] and [value_max] are [self.min] and
    [self.max].  [grid_lat] and [grid_lon] are passed along instead of
    being stored. *)
Record GeoJson := {
  wrf_file : string;
  file_type : string;
  variable : string;
  z_level : option Z;
  value_min : F;
  value_max : F;
  contour_interval : F;
  palette : string
}.

(** A message of a GRIB2 file, as pygrib presents it. *)
Record GribMessage := {
  shortName : string;
  values : ndarray F
}.

(** What [path.to_polygons()] returns for a path of a contour band:
    the outer polygon, then its holes; each polygon is the list of its
    points, in grid coordinates. *)
Definition Polygon := list (F * F).
Definition Path := list Polygon.

(** The result of [pyplot.contourf]: [collections[i].get_paths()] are
    the paths of band [i], [tcolors[i][0]] is its colour. *)
Record QuadContourSet := {
  collections : list (list Path);
  tcolors : list (list (F * F * F * F))
}.

(** The GeoJSON document. *)
Record Geometry := {
  geometry_type : string;
  coordinates : list (json F)
}.

Record Feature := {
  feature_type : string;
  geometry : Geometry;
  properties : gmap string string
}.

Record FeatureCollection := {
  doc_type : string;
  features : list Feature
}.

(** A product of [geojson_products.yaml]: [product_variable] maps a
    file type [t] to [product[t]['variable']]. *)
Record Product := {
  product_variable : gmap string string;
  product_range_min : F;
  product_range_max : F;
  product_contour_interval : F;
  product_palette : string;
  product_z_levels : option (list Z)
}.

(** How the body of [with open(out_file, 'wb') as file] ends: it
    returns, and the file holds the data; or one of [json.dumps],
    [compress], [file.write], [file.flush] and [file.close] raises,
    and the file holds the part of the data that had reached it. *)
Inductive write_outcome :=
| Written
| WriteRaised (e : exn) (reached : string).

(** The libraries and resources the module calls: netCDF4, pygrib,
    matplotlib, the serialisation [compress(json.dumps(doc).encode())],
    whether [open(path, 'wb')] succeeds, how the writing of a document
    to the file opened at a path ends, and the product list of the
    package. *)
Record Runtime := {
  netcdf_Dataset : string → result (gmap string (ndarray F));
  pygrib_open : string → result (list GribMessage);
  pyplot_contourf : ndarray F → list F → string → result QuadContourSet;
  colors_rgb2hex : F * F * F * F → string;
  dumps_gz : FeatureCollection → string;
  can_open_wb : string → bool;
  file_write : string → FeatureCollection → write_outcome;
  geojson_products : list Product
}.

(** What a run leaves behind: the lines of the log and the files
    written. *)
Record World := {
  log : list (string * string);
  files : gmap string string
}.

Definition log_line (level message : string) (w : World) : World :=
  {| log := log w ++ [(level, message)]; files := files w |}.

Definition write_file (path data : string) (w : World) : World :=
  {| log := log w; files := <[path := data]> (files w) |}.

(** The truth value of [self.z_level]. *)
Definition truthy (z : option Z) : bool :=
  match z with
  | Some n => negb (n =? 0)
  | None => false
  end.

(** [wrf[name]] on a netCDF4 dataset: a missing name raises
    [IndexError]. *)
Definition dataset_get (wrf : gmap string (ndarray F)) (name : string)
    : result (ndarray F) :=
  match wrf !! name with
  | Some a => Ok a
  | None => Raise IndexError
  end.

Definition _read_from_netcdf (rt : Runtime) (self : GeoJson)
    : result (ndarray F * ndarray F * ndarray F) :=
  (* open the NetCDF file and get the requested horizontal slice *)
  let* wrf := netcdf_Dataset rt (wrf_file self) in
  let* data := dataset_get wrf (variable self) in
  let time_index := 0 in
  let* grid := (if truthy (z_level self)
                then let* step := nd_index data time_index in
                     nd_index step (default 0 (z_level self))
                else nd_index data time_index) in
  (* get the latitude and longitude grids *)
  let* xlat := dataset_get wrf "XLAT" in
  let* grid_lat := nd_index xlat 0 in
  let* xlong := dataset_get wrf "XLONG" in
  let* grid_lon := nd_index xlong 0 in
  Ok (grid, grid_lat, grid_lon).

(** [wrf.select(shortName=name)]: the messages with that name, in file
    order; none raises [ValueError]. *)
Definition grib_select (wrf : list GribMessage) (name : string)
    : result (list GribMessage) :=
  match filter (fun m => shortName m = name) wrf with
  | [] => Raise ValueError
  | ms => Ok ms
  end.

Definition _read_from_grib (rt : Runtime) (self : GeoJson)
    : result (ndarray F * ndarray F * ndarray F) :=
  (* read grib2 file with pygrib & eccodes *)
  let* wrf := pygrib_open rt (wrf_file self) in
  let* selected := grib_select wrf (variable self) in
  let* variable := py_index selected
                     (if truthy (z_level self) then default 0 (z_level self) else 0) in
  let grid := values variable in
  (* get the latitude and longitude grids *)
  let* nlat := grib_select wrf "nlat" in
  let* nlat0 := py_index nlat 0 in
  let grid_lat := values nlat0 in
  let* elon := grib_select wrf "elon" in
  let* elon0 := py_index elon 0 in
  let grid_lon := nd_map (fun v => fsub v (of_int 360)) (values elon0) in
  Ok (grid, grid_lat, grid_lon).

(** The contour levels of [convert]. *)
Definition contour_levels (self : GeoJson) : result (list F) :=
  let* range_min := py_int (fmul (value_min self) (of_int 10)) in
  let* range_max := py_int (fmul (value_max self) (of_int 10)) in
  let* ci := py_int (fmul (contour_interval self) (of_int 10)) in
  let* r := py_range range_min range_max ci in
  Ok (map (fun i => int_truediv i 10) r).

(** [[self._polygon_to_coord_array(hole) for hole in holes]] *)
Fixpoint holes_to_coord_arrays (grid_lat grid_lon : ndarray F) (holes : list Polygon)
    : result (list (list (F * F))) :=
  match holes with
  | [] => Ok []
  | hole :: rest =>
      let* h := _polygon_to_coord_array grid_lat grid_lon hole in
      let* hs := holes_to_coord_arrays grid_lat grid_lon rest in
      Ok (h :: hs)
  end.

Definition make_feature (coords : json F) (level_color : string) : Feature :=
  {| feature_type := "Feature";
     geometry := {| geometry_type := "MultiPolygon"; coordinates := [coords] |};
     properties := {[ "fill" := level_color ]} |}.

(** The inner loop of [convert], over the paths of one band;
    [features] is the list built so far. *)
Fixpoint paths_loop (grid_lat grid_lon : ndarray F) (level_color : string)
    (paths : list Path) (features : list Feature) : result (list Feature) :=
  match paths with
  | [] => Ok features
  | path_polygons :: rest =>
      match path_polygons with
      | [] =>
          (* skip if there are no polygons *)
          paths_loop grid_lat grid_lon level_color rest features
      | first :: others =>
          (* the first polygon in the list is the outer polygon *)
          let* outer_polygon := _polygon_to_coord_array grid_lat grid_lon first in
          (* the remaining polygons are holes in the outer polygon *)
          let* holes := holes_to_coord_arrays grid_lat grid_lon others in
          let polygon_string :=
            _polygon_and_holes_to_multi_polygon outer_polygon holes in
          let* coords := json_loads polygon_string in
          let feature := make_feature coords level_color in
          paths_loop grid_lat grid_lon level_color rest (features ++ [feature])
      end
  end.

(** The outer loop of [convert], over [enumerate(contours.collections)]
    from index [i] on. *)
Fixpoint collections_loop (rt : Runtime) (grid_lat grid_lon : ndarray F)
    (colours : list (list (F * F * F * F))) (i : Z)
    (contour_lines : list (list Path)) (features : list Feature)
    : result (list Feature) :=
  match contour_lines with
  | [] => Ok features
  | contour_line :: rest =>
      (* get the hex color for this level *)
      let* level_colours := py_index colours i in
      let* rgba := py_index level_colours 0 in
      let level_color := colors_rgb2hex rt rgba in
      let* features := paths_loop grid_lat grid_lon level_color contour_line features in
      collections_loop rt grid_lat grid_lon colours (i + 1) rest features
  end.

(** [convert] from the contour levels to the document. *)
Definition make_document (rt : Runtime) (self : GeoJson)
    (grid grid_lat grid_lon : ndarray F) : result FeatureCollection :=
  (* create a set of contours from the data grid *)
  let* levels := contour_levels self in
  let* contours := pyplot_contourf rt grid levels (palette self) in
  (* create a set of features for the GeoJSON file *)
  let* features := collections_loop rt grid_lat grid_lon (tcolors contours) 0
                     (collections contours) [] in
  (* create the GeoJSON document *)
  Ok {| doc_type := "FeatureCollection"; features := features |}.

Definition str_out_file (out_file : option string) : string :=
  match out_file with
  | Some path => path
  | None => "None"
  end.

Definition quote : string := String (Ascii false true false false false true false false) EmptyString.

Definition invalid_type_message (self : GeoJson) : string :=
  "Invalid file type: " +:+ file_type self +:+ ".  Valid types are "
  +:+ quote +:+ "netcdf" +:+ quote +:+ " and " +:+ quote +:+ "grib2" +:+ quote +:+ ".".

(** [GeoJson.convert]: the world after the call, and either the
    exception raised or the value returned ([None], or the document
    when there is no output file). *)
Definition convert (rt : Runtime) (self : GeoJson) (out_file : option string)
    (w : World) : World * result (option FeatureCollection) :=
  (* log status info *)
  let w := log_line "INFO"
             ("Converting " +:+ variable self +:+ " to " +:+ str_out_file out_file) w in
  (* get the data, lat, and lon grids *)
  let grids :=
    if String.eqb (file_type self) "grib2" then Some (_read_from_grib rt self)
    else if String.eqb (file_type self) "netcdf" then Some (_read_from_netcdf rt self)
    else None in
  match grids with
  | None => (log_line "ERROR" (invalid_type_message self) w, Ok None)
  | Some (Raise e) => (w, Raise e)
  | Some (Ok (grid, grid_lat, grid_lon)) =>
      match make_document rt self grid grid_lat grid_lon with
      | Raise e => (w, Raise e)
      | Ok doc =>
          match out_file with
          | None =>
              (* return the document if no output file was provided *)
              (w, Ok (Some doc))
          | Some path =>
              (* write the data to a file *)
              if can_open_wb rt path
              then
                (* [open] has made the file, or emptied it *)
                let w := write_file path EmptyString w in
                match file_write rt path doc with
                | Written => (write_file path (dumps_gz rt doc) w, Ok None)
                | WriteRaised e reached => (write_file path reached w, Raise e)
                end
              else (w, Raise OSError)
          end
      end
  end.

End Converter.

(** ** Batch mode: _automate_products *)

Section Batch.
Context {F : Type} `{PyFloat F}.

(** [str(n)] for an [int]. *)
Definition str_int (n : Z) : string := NilZero.string_of_int (Z.to_int n).

(** A call [converter.convert(out_file)] submitted to the pool. *)
Record Task := {
  task_converter : @GeoJson F;
  task_out_file : string
}.

(** [product['z_levels'] if 'z_levels' in product else [None]] *)
Definition z_levels_of (product : @Product F) : list (option Z) :=
  match product_z_levels product with
  | Some zs => map Some zs
  | None => [None]
  end.

(** The loop over the z-levels of one product: [futures] lists the
    calls submitted so far. *)
Fixpoint submit_levels (wrf_file file_type variable : string) (product : @Product F)
    (z_levels : list (option Z)) (futures : list Task) : list Task :=
  match z_levels with
  | [] => futures
  | z_level :: rest =>
      let out_file := match z_level with
                      | None => wrf_file +:+ "_" +:+ variable
                      | Some z => wrf_file +:+ "_" +:+ variable +:+ "_" +:+ str_int z
                      end in
      let out_file := out_file +:+ ".geojson.gz" in
      let converter :=
        {| wrf_file := wrf_file; file_type := file_type; variable := variable;
           z_level := z_level;
           value_min := product_range_min product;
           value_max := product_range_max product;
           contour_interval := product_contour_interval product;
           palette := product_palette product |} in
      submit_levels wrf_file file_type variable product rest
        (futures ++ [{| task_converter := converter; task_out_file := out_file |}])
  end.

(** The loop over the products: the calls submitted, and the
    exception that stopped the loop, if any ([product[file_type]] on a
    product without that file type). *)
Fixpoint submit_products (wrf_file file_type : string) (products : list (@Product F))
    (futures : list Task) : list Task * option exn :=
  match products with
  | [] => (futures, None)
  | product :: rest =>
      match product_variable product !! file_type with
      | None => (futures, Some (KeyError file_type))
      | Some variable =>
          submit_products wrf_file file_type rest
            (submit_levels wrf_file file_type variable product
               (z_levels_of product) futures)
      end
  end.

(** The pool: every submitted call is run; nothing in the module
    cancels one.  The calls are independent processes; they are run
    here one after the other in the order of submission, and each
    future holds what its call returned or raised. *)
Fixpoint run_pool (rt : Runtime) (tasks : list Task) (w : World)
    : World * list (result (option (@FeatureCollection F))) :=
  match tasks with
  | [] => (w, [])
  | task :: rest =>
      let '(w1, outcome) :=
        convert rt (task_converter task) (Some (task_out_file task)) w in
      let '(w2, outcomes) := run_pool rt rest w1 in
      (w2, outcome :: outcomes)
  end.

(** [for future in futures: future.result()]: [result()] raises what
    the call raised. *)
Fixpoint wait_results {A} (futures : list (result A)) : result unit :=
  match futures with
  | [] => Ok tt
  | future :: rest =>
      let* _ := future in
      wait_results rest
  end.

Definition _automate_products (rt : Runtime) (wrf_file file_type : string) (w : World)
    : World * result unit :=
  (* load the product list from the yaml file *)
  let products := geojson_products rt in
  (* create each product *)
  let '(tasks, stopped) := submit_products wrf_file file_type products [] in
  let '(w', futures) := run_pool rt tasks w in
  match stopped with
  | Some e => (w', Raise e)
  | None => (w', wait_results futures)
  end.

End Batch.

(** ** The other functions of the module *)

(** [l[lo:hi]]: an index below 0 counts from the end, and both ends
    are brought back into the list. *)
Definition slice_bound (n i : Z) : Z :=
  let j := if i <? 0 then i + n else i in
  Z.max 0 (Z.min n j).

Definition py_slice {A} (l : list A) (lo hi : Z) : list A :=
  let n := Z.of_nat (length l) in
  let start := slice_bound n lo in
  let stop := slice_bound n hi in
  take (Z.to_nat (stop - start)) (drop (Z.to_nat start) l).

Section Others.
Context {F : Type} `{PyFloat F}.

(** The loop of [_1d_to_2d] over the indices of the range; [data2d]
    is the list of rows built so far. *)
Fixpoint rows_loop (data : list F) (x : Z) (indices : list Z)
    (data2d : list (list F)) : list (list F) :=
  match indices with
  | [] => data2d
  | i :: rest => rows_loop data x rest (data2d ++ [py_slice data i (i + x)])
  end.

(** [MaskedArray(data2d, ndmin=2)]: the array of the rows when they
    have one length.  Of no row at all numpy makes an array of one
    empty row; of rows of unequal lengths it makes a one-dimensional
    array of objects, the rows, which [ndmin=2] turns into an array of
    one row of them. *)
Definition masked_array_2d (data2d : list (list F)) : ndarray F :=
  match data2d with
  | [] => Axis [Axis []]
  | row :: rest =>
      if forallb (fun r => Nat.eqb (length r) (length row)) rest
      then nd_of_rows data2d
      else Axis [nd_of_rows data2d]
  end.

Definition _1d_to_2d (data : list F) (x y : Z) : result (ndarray F) :=
  let* indices := py_range 0 (x * y) x in
  let data2d := rows_loop data x indices [] in
  Ok (masked_array_2d data2d).

(** [GeoJson.__init__]: the fields of the converter, with
    [value_range[0]] and [value_range[1]] as its bounds. *)
Definition __init__ (wrf_file file_type variable : string) (value_range : list F)
    (contour_interval : F) (palette : string) (z_level : option Z)
    : result (@GeoJson F) :=
  let* value_min := py_index value_range 0 in
  let* value_max := py_index value_range 1 in
  Ok {| wrf_file := wrf_file; file_type := file_type; variable := variable;
        z_level := z_level; value_min := value_min; value_max := value_max;
        contour_interval := contour_interval; palette := palette |}.

(** [_manual_product]: the world after the call, and either the
    exception raised or what was printed, if anything.
    [json_dumps_indent doc] is [json.dumps(doc, indent=2)]. *)
Definition _manual_product (rt : @Runtime F)
    (json_dumps_indent : @FeatureCollection F → string)
    (wrf_file file_type : string) (out_file : option string) (variable : string)
    (value_range : list F) (contour_interval : F) (palette : string)
    (z_level : option Z) (w : World) : World * result (option string) :=
  (* convert the WRF data to GeoJSON *)
  match __init__ wrf_file file_type variable value_range contour_interval
          palette z_level with
  | Raise e => (w, Raise e)
  | Ok converter =>
      let '(w', output) := convert rt converter out_file w in
      match output with
      | Raise e => (w', Raise e)
      | Ok (Some doc) =>
          (* print the output to stdout if we do not have an output file *)
          (w', Ok (Some (json_dumps_indent doc)))
      | Ok None => (w', Ok None)
      end
  end.

(** The name of the output file of a task of [_automate_products]. *)
Definition task_file_name (wrf_file variable : string) (z_level : option Z) : string :=
  match z_level with
  | None => wrf_file +:+ "_" +:+ variable
  | Some z => wrf_file +:+ "_" +:+ variable +:+ "_" +:+ str_int z
  end +:+ ".geojson.gz".

(** The task that [_automate_products] submits for a z-level of a
    product, and its tasks for the product. *)
Definition level_task (wrf_file file_type variable : string) (product : @Product F)
    (z_level : option Z) : @Task F :=
  {| task_converter :=
       {| wrf_file := wrf_file; file_type := file_type; variable := variable;
          z_level := z_level;
          value_min := product_range_min product;
          value_max := product_range_max product;
          contour_interval := product_contour_interval product;
          palette := product_palette product |};
     task_out_file := task_file_name wrf_file variable z_level |}.

Definition product_tasks (wrf_file file_type variable : string) (product : @Product F)
    : list (@Task F) :=
  map (level_task wrf_file file_type variable product) (z_levels_of product).

(** The tasks of a product for a file type, none when the product has
    no variable for that file type. *)
Definition tasks_of (wrf_file file_type : string) (product : @Product F)
    : list (@Task F) :=
  match product_variable product !! file_type with
  | Some variable => product_tasks wrf_file file_type variable product
  | None => []
  end.

(** A feature as [convert] builds them: a [Feature] whose geometry is
    a [MultiPolygon] of one polygon and whose only property is the
    fill colour. *)
Definition well_formed_feature (feature : @Feature F) : Prop :=
  feature_type feature = "Feature"
  ∧ geometry_type (geometry feature) = "MultiPolygon"
  ∧ length (coordinates (geometry feature)) = 1%nat
  ∧ ∃ colour, properties feature = {[ "fill" := colour ]}.

End Others.

(** ** IEEE 754 binary64

    The interpretation of [PyFloat] on binary64 numbers: the
    arithmetic of the processor, [round] as numpy 1.23 (the version
    [setup.py] pins) computes it on a float64, and [repr] and [float]
    as CPython computes them (the shortest decimal that reads back;
    the float nearest to a decimal). *)

Module Binary64.

(** The float nearest to an integer (ties to even). *)
Definition of_Z (z : Z) : float := SF2Prim (binary_normalize prec emax z 0 false).

(** The float nearest to [a / b] (ties to even), for [b] other than 0. *)
Definition ratio (a b : Z) : float :=
  let sf (z : Z) := match z with
                    | Zpos p => S754_finite false p 0
                    | Zneg p => S754_finite true p 0
                    | Z0 => S754_zero false
                    end in
  SF2Prim (SFdiv prec emax (sf a) (sf b)).

(** The float nearest to [c * 10 ^ q]. *)
Definition of_decimal (c q : Z) : float :=
  if 0 <=? q then of_Z (c * 10 ^ q) else ratio c (10 ^ (- q)).

Definition value (x : float) : fvalue :=
  match Prim2SF x with
  | S754_zero _ => Finite 0%Q
  | S754_finite s m (Zneg e) => Finite ((if s then Zneg m else Zpos m) # (2 ^ e))%Q
  | S754_finite s m e => Finite (inject_Z ((if s then Zneg m else Zpos m) * 2 ^ e))
  | S754_infinity _ => Infinite
  | S754_nan => NaN
  end.

(** C's [rint]: the nearest integer, ties to even. *)
Definition rint (x : float) : float :=
  match Prim2SF x with
  | S754_finite s m (Zneg e) =>
      let d := 2 ^ Zpos e in
      let q := Zpos m / d in
      let r := Zpos m mod d in
      let k := if 2 * r <? d then q
               else if d <? 2 * r then q + 1
               else if Z.even q then q else q + 1 in
      if k =? 0 then (if s then PrimFloat.neg_zero else PrimFloat.zero)
      else of_Z (if s then - k else k)
  | _ => x
  end.

(** [round(x, 5)] on a numpy float64 (numpy 1.23): multiply by
    [10 ** 5], [rint], divide. *)
Definition round5 (x : float) : float :=
  (rint (x * 100000) / 100000)%float.

(** *** Reading a number *)

Definition digit_value (c : ascii) : Z := Z.of_nat (nat_of_ascii c) - 48.

Fixpoint digits_value (s : string) (acc : Z) : Z :=
  match s with
  | String c r => digits_value r (10 * acc + digit_value c)
  | EmptyString => acc
  end.

(** [float(s)] for the text [s] of a JSON number: the float nearest
    to the decimal. *)
Definition float_of_string (s : string) : option float :=
  match scan_integer s with
  | None => None
  | Some (integer, r1) =>
      let '(frac, r2) := scan_frac r1 in
      let '(exp, r3) := scan_exp r2 in
      match r3 with
      | EmptyString =>
          let '(negative, idigits) := match integer with
                                      | String "-" ds => (true, ds)
                                      | ds => (false, ds)
                                      end in
          let fdigits := match frac with String _ ds => ds | EmptyString => EmptyString end in
          let e := match exp with
                   | String _ (String "-" ds) => - digits_value ds 0
                   | String _ (String "+" ds) => digits_value ds 0
                   | String _ ds => digits_value ds 0
                   | EmptyString => 0
                   end in
          let m := digits_value (idigits +:+ fdigits) 0 in
          if m =? 0 then Some (if negative then PrimFloat.neg_zero else PrimFloat.zero)
          else Some (of_decimal (if negative then - m else m)
                       (e - Z.of_nat (String.length fdigits)))
      | _ => None
      end
  end.

(** *** Printing a number *)

(** The number of decimal digits of [n], for [n] at least 1. *)
Fixpoint count_digits (fuel : nat) (n : Z) : Z :=
  match fuel with
  | O => 1
  | S f => if n <? 10 then 1 else 1 + count_digits f (n / 10)
  end.

(** The least [j] from [j0] on with [num * 10 ^ j >= den]. *)
Fixpoint leading_zeros (fuel : nat) (num den j : Z) : Z :=
  match fuel with
  | O => j
  | S f => if den <=? num * 10 ^ j then j else leading_zeros f num den (j + 1)
  end.

(** The [k] with [10 ^ (k - 1) <= num / den < 10 ^ k]. *)
Definition decimal_exponent (num den : Z) : Z :=
  if den <=? num then count_digits 400 (num / den)
  else 1 - leading_zeros 400 num den 1.

(** The decimal [c * 10 ^ (k - p)] of [p] digits that reads back as
    [x], if there is one; the nearer to [num / den] of the two
    candidates when both do. *)
Definition try_digits (x : float) (num den k p : Z) : option (Z * Z) :=
  let q := k - p in
  let n' := if q <? 0 then num * 10 ^ (- q) else num in
  let d' := if q <? 0 then den else den * 10 ^ q in
  let lo := n' / d' in
  let r := n' mod d' in
  let hi := lo + 1 in
  let reads_back c := PrimFloat.eqb (of_decimal c q) x in
  match reads_back lo, reads_back hi with
  | true, true =>
      Some (if 2 * r <? d' then lo
            else if d' <? 2 * r then hi
            else if Z.even lo then lo else hi, q)
  | true, false => Some (lo, q)
  | false, true => Some (hi, q)
  | false, false => None
  end.

(** The shortest decimal that reads back as [x]: at most 17 digits
    are needed. *)
Fixpoint shortest_digits (fuel : nat) (x : float) (num den k p : Z) : Z * Z :=
  match fuel with
  | O => (num * 10 ^ (17 - k) / den, k - 17)
  | S f =>
      match try_digits x num den k p with
      | Some cq => cq
      | None => shortest_digits f x num den k (p + 1)
      end
  end.

Fixpoint strip_zeros (fuel : nat) (c q : Z) : Z * Z :=
  match fuel with
  | O => (c, q)
  | S f => if c mod 10 =? 0 then strip_zeros f (c / 10) (q + 1) else (c, q)
  end.

Definition digits_of (c : Z) : string := NilZero.string_of_int (Z.to_int c).

Fixpoint zeros (n : nat) : string :=
  match n with
  | O => EmptyString
  | S n' => String "0" (zeros n')
  end.

Fixpoint take (n : nat) (s : string) : string :=
  match n, s with
  | S n', String c r => String c (take n' r)
  | _, _ => EmptyString
  end.

Fixpoint drop (n : nat) (s : string) : string :=
  match n, s with
  | S n', String c r => drop n' r
  | _, _ => s
  end.

(** The layout of [repr]: [digits] with the decimal point after the
    first [decpt] of them; exponent notation when [decpt] is above 16
    or below -3. *)
Definition layout (digits : string) (decpt : Z) : string :=
  let n := Z.of_nat (String.length digits) in
  if (decpt <=? -4) || (16 <? decpt) then
    let e := decpt - 1 in
    let mantissa := match digits with
                    | String c EmptyString => digits
                    | String c r => String c (String "." r)
                    | EmptyString => EmptyString
                    end in
    let ed := digits_of (Z.abs e) in
    mantissa +:+ "e" +:+ (if e <? 0 then "-" else "+")
             +:+ (if Z.abs e <? 10 then "0" else EmptyString) +:+ ed
  else if decpt <=? 0 then
    "0." +:+ zeros (Z.to_nat (- decpt)) +:+ digits
  else if n <=? decpt then
    digits +:+ zeros (Z.to_nat (decpt - n)) +:+ ".0"
  else
    take (Z.to_nat decpt) digits +:+ "." +:+ drop (Z.to_nat decpt) digits.

(** [repr(x)] *)
Definition repr (x : float) : string :=
  match Prim2SF x with
  | S754_nan => "nan"
  | S754_infinity s => if s then "-inf" else "inf"
  | S754_zero s => if s then "-0.0" else "0.0"
  | S754_finite s m e =>
      let num := if 0 <=? e then Zpos m * 2 ^ e else Zpos m in
      let den := if 0 <=? e then 1 else 2 ^ (- e) in
      let k := decimal_exponent num den in
      let '(c, q) := shortest_digits 17 (PrimFloat.abs x) num den k 1 in
      let '(c, q) := strip_zeros 20 c q in
      let digits := digits_of c in
      (if s then "-" else EmptyString)
      +:+ layout digits (Z.of_nat (String.length digits) + q)
  end.

End Binary64.

#[export] Instance binary64 : PyFloat float := {|
  fadd := PrimFloat.add;
  fsub := PrimFloat.sub;
  fmul := PrimFloat.mul;
  of_int := Binary64.of_Z;
  int_truediv := Binary64.ratio;
  fval := Binary64.value;
  round5 := Binary64.round5;
  frepr := Binary64.repr;
  float_of_string := Binary64.float_of_string
|}.

(** ** Notions used in the statements *)

(** A text that does not go on with a digit. *)
Definition stops_digits (rest : string) : Prop :=
  match rest with
  | String c _ => is_digit c = false
  | EmptyString => True
  end.

(** A text that begins with a comma or a closing bracket. *)
Definition delimited (rest : string) : Prop :=
  ∃ c r, rest = String c r ∧ (c = ","%char ∨ c = "]"%char).

Section Notions.
Context {F : Type} `{PyFloat F}.

(** Every row has [ncols] elements. *)
Definition rectangular (rows : list (list F)) (ncols : nat) : Prop :=
  Forall (fun row => length row = ncols) rows.

(** Element [x] of row [y], for indices counted from 0. *)
Definition cell (rows : list (list F)) (y x : Z) : option F :=
  if (0 <=? y) && (0 <=? x)
  then rows !! Z.to_nat y ≫= (fun row => row !! Z.to_nat x)
  else None.

(** An index that Python and numpy accept on an axis of length [n]. *)
Definition index_ok (n : nat) (i : Z) : bool :=
  (- Z.of_nat n <=? i) && (i <? Z.of_nat n).

(** The first index that is refused among [checks], which lists
    indices in the order of their use, each with the length of its
    axis. *)
Fixpoint first_refused (checks : list (nat * Z)) : option Z :=
  match checks with
  | [] => None
  | (n, i) :: rest => if index_ok n i then first_refused rest else Some i
  end.

(** Rounding to 5 decimals leaves [x] alone when it is an integer. *)
Definition keeps_integers (x : F) : Prop :=
  ∀ n : Z, int_eq_float n x = true → int_eq_float n (round5 x) = true.

(** The point [(x, y)] lies outside the extent
    [[0, ncols - 1] x [0, nrows - 1]] of the grid. *)
Definition outside_extent (nrows ncols : nat) (x y : F) : Prop :=
  match fval x, fval y with
  | Finite qx, Finite qy =>
      (qx < 0 ∨ inject_Z (Z.of_nat ncols - 1) < qx
       ∨ qy < 0 ∨ inject_Z (Z.of_nat nrows - 1) < qy)%Q
  | _, _ => True
  end.

(** The mapper returns a pair at [point]. *)
Definition maps_to (grid_lat grid_lon : ndarray F) (point lonlat : F * F) : Prop :=
  _grid_to_lonlat grid_lat grid_lon (fst point) (snd point) = Ok lonlat.

Definition mappable (grid_lat grid_lon : ndarray F) (point : F * F) : Prop :=
  is_ok (_grid_to_lonlat grid_lat grid_lon (fst point) (snd point)) = true.

(** The text [s] is a JSON number with a fraction or an exponent,
    the kind that [json.loads] reads as a float. *)
Definition json_float_text (s : string) : bool :=
  match scan_integer s with
  | None => false
  | Some (_, r1) =>
      let '(frac, r2) := scan_frac r1 in
      let '(exp, r3) := scan_exp r2 in
      match r3, frac, exp with
      | EmptyString, EmptyString, EmptyString => false
      | EmptyString, _, _ => true
      | _, _, _ => false
      end
  end.

(** [repr(x)] is such a text and [float] reads [x] back from it.
    CPython and numpy print every finite float so; [nan] and the
    infinities print as words. *)
Definition prints_as_json (x : F) : Prop :=
  json_float_text (frepr x) = true ∧ float_of_string (frepr x) = Some x.

Definition point_prints_as_json (point : F * F) : Prop :=
  prints_as_json (fst point) ∧ prints_as_json (snd point).

(** A point as the two-element list [[lon, lat]], and a ring as the
    list of its points. *)
Definition point_json (point : F * F) : json F :=
  JArray [JFloat (fst point); JFloat (snd point)].

Definition ring_json (ring : list (F * F)) : json F :=
  JArray (map point_json ring).

(** What [append_holes] appends: a comma and the text of each hole. *)
Fixpoint holes_text (holes : list (list (F * F))) : string :=
  match holes with
  | [] => EmptyString
  | hole :: rest => "," +:+ str_polygon hole +:+ holes_text rest
  end.

(** Fuel that is enough for [scan_once] to read the text of a ring,
    and for [scan_items] to read the texts of a list of rings. *)
Definition ring_fuel (ring : list (F * F)) : nat :=
  match ring with
  | [] => 1
  | _ :: points => length points + 6
  end.

Fixpoint rings_fuel (rings : list (list (F * F))) : nat :=
  match rings with
  | [] => 0
  | ring :: rest => Nat.max (S (ring_fuel ring)) (S (rings_fuel rest))
  end.

(** The number of points of the outer ring of a path: those of its
    first polygon, and none when it has no polygon. *)
Definition outer_ring_points (path : @Path F) : nat := length (hd [] path).

(** What [to_polygons()] returns on the paths of a contour set:
    matplotlib returns no polygon for a path without vertices and
    leaves out the polygons of fewer than three points, so that no
    polygon is without points. *)
Definition receivable (contours : @QuadContourSet F) : Prop :=
  Forall (Forall (Forall (fun polygon : @Polygon F => polygon ≠ [])))
    (collections contours).

(** A path for which [to_polygons()] returns at least one polygon. *)
Definition has_polygons (path : @Path F) : bool :=
  match path with
  | [] => false
  | _ :: _ => true
  end.

(** The paths with polygons of the bands, each with the index of its
    band: band after band from index [i] on, and within a band in the
    order of the paths. *)
Fixpoint numbered_paths (i : Z) (bands : list (list (@Path F))) : list (Z * @Path F) :=
  match bands with
  | [] => []
  | band :: rest =>
      map (pair i) (List.filter has_polygons band) ++ numbered_paths (i + 1) rest
  end.

(** [colors.rgb2hex(contours.tcolors[i][0])] *)
Definition band_colour (rt : @Runtime F) (colours : list (list (F * F * F * F))) (i : Z)
    : result string :=
  let* level_colours := py_index colours i in
  let* rgba := py_index level_colours 0 in
  Ok (colors_rgb2hex rt rgba).

(** The mapper returns at [point], and what it returns prints as JSON. *)
Definition good_point (grid_lat grid_lon : ndarray F) (point : F * F) : Prop :=
  ∃ lonlat, maps_to grid_lat grid_lon point lonlat ∧ point_prints_as_json lonlat.

(** [feature] is the feature of [path] in a band of colour [colour]:
    its geometry has one polygon, made of the image of the first
    polygon of the path followed by the images of the others. *)
Definition path_feature (grid_lat grid_lon : ndarray F) (colour : string)
    (path : @Path F) (feature : @Feature F) : Prop :=
  ∃ first others outer holes,
    path = first :: others
    ∧ Forall2 (maps_to grid_lat grid_lon) first outer
    ∧ Forall2 (Forall2 (maps_to grid_lat grid_lon)) others holes
    ∧ feature = make_feature (JArray (ring_json outer :: map ring_json holes)) colour.

(** The number of points of the outer ring of a feature. *)
Definition outer_ring_size (feature : @Feature F) : option nat :=
  match coordinates (geometry feature) with
  | [JArray (JArray points :: _)] => Some (length points)
  | _ => None
  end.

(** The converter [self] built with another [z_level] argument. *)
Definition with_z_level (self : @GeoJson F) (z : option Z) : @GeoJson F :=
  {| wrf_file := wrf_file self; file_type := file_type self;
     variable := variable self; z_level := z;
     value_min := value_min self; value_max := value_max self;
     contour_interval := contour_interval self; palette := palette self |}.

(** The converter [self] built with another [file_type] argument. *)
Definition with_file_type (self : @GeoJson F) (t : string) : @GeoJson F :=
  {| wrf_file := wrf_file self; file_type := t;
     variable := variable self; z_level := z_level self;
     value_min := value_min self; value_max := value_max self;
     contour_interval := contour_interval self; palette := palette self |}.

End Notions.

(** ** Example data *)

Module Example.
Local Open Scope float_scope.

(** A grid of 2 rows and 2 columns. *)
Definition lat : list (list float) := [[40; 40.5]; [41; 41.5]].
Definition lon : list (list float) := [[-105; -104]; [-105.25; -104.25]].
Definition grid_lat : ndarray float := nd_of_rows lat.
Definition grid_lon : ndarray float := nd_of_rows lon.

(** A ring of 4 points of that grid. *)
Definition ring4 : list (float * float) := [(0, 0); (1, 0); (1, 1); (0.25, 0.75)].

(** A converter with [min = 0.0], [max = 2.0] and
    [contour_interval = 0.5]. *)
Definition converter : @GeoJson float :=
  {| wrf_file := "wrfout_d01"; file_type := "netcdf"; variable := "T2";
     z_level := None; value_min := 0; value_max := 2; contour_interval := 0.5;
     palette := "jet" |}.

(** A NetCDF file with a surface field [T2] (time, y, x), the fields
    [T], [U] and [V] on 3 levels (time, z, y, x) and the coordinates of
    the grid. *)
Definition field (a b c d : float) : ndarray float := nd_of_rows [[a; b]; [c; d]].

Definition dataset : gmap string (ndarray float) :=
  {[ "T2" := Axis [field 1 2 3 4];
     "T" := Axis [Axis [field 10 20 30 40; field 11 21 31 41; field 12 22 32 42]];
     "U" := Axis [Axis [field 10 20 30 40; field 11 21 31 41; field 12 22 32 42]];
     "V" := Axis [Axis [field 10 20 30 40; field 11 21 31 41; field 12 22 32 42]];
     "XLAT" := Axis [grid_lat];
     "XLONG" := Axis [grid_lon] ]}.

(** The same fields as the messages of a GRIB2 file; its longitudes
    count from 0 to 360. *)
Definition messages : list (@GribMessage float) :=
  [ {| shortName := "2t"; values := field 1 2 3 4 |};
    {| shortName := "t"; values := field 10 20 30 40 |};
    {| shortName := "t"; values := field 11 21 31 41 |};
    {| shortName := "nlat"; values := grid_lat |};
    {| shortName := "elon"; values := nd_of_rows [[255; 256]; [254.75; 255.75]] |} ].

(** What the contouring library answered: two bands.  The first has a
    path with an outer polygon and a hole, and a path without polygons;
    the second has one path with one polygon. *)
Definition contours : @QuadContourSet float :=
  {| collections :=
       [ [ [ [(0, 0); (1, 0); (1, 1); (0, 1)]; [(0.25, 0.25); (0.5, 0.75)] ]; [] ];
         [ [ [(0.5, 0.5); (1, 0.5); (1, 1)] ] ] ];
     tcolors := [ [(0, 0, 1, 1)]; [(1, 0, 0, 1)] ] |}.

(** Three products with two vertical levels each; the file has no
    level 5. *)
Definition product (name : string) (levels : list Z) : @Product float :=
  {| product_variable := {[ "netcdf" := name; "grib2" := "t" ]};
     product_range_min := 0; product_range_max := 2;
     product_contour_interval := 0.5; product_palette := "jet";
     product_z_levels := Some levels |}.

Definition runtime : @Runtime float :=
  {| netcdf_Dataset := fun path =>
       if String.eqb path "wrfout_d01" then Ok dataset else Raise OSError;
     pygrib_open := fun path =>
       if String.eqb path "wrfout_d01.grib2" then Ok messages else Raise OSError;
     pyplot_contourf := fun grid levels cmap => Ok contours;
     colors_rgb2hex := fun rgba =>
       match rgba with
       | (r, _, _, _) => if PrimFloat.eqb r 1 then "#ff0000" else "#0000ff"
       end;
     dumps_gz := fun doc => "gzip:" +:+ str_int (Z.of_nat (length (features doc)));
     can_open_wb := fun path => true;
     file_write := fun path doc => Written;
     geojson_products :=
       [product "T" [1; 2]%Z; product "U" [1; 5]%Z; product "V" [1; 2]%Z] |}.

Definition world : World := {| log := []; files := ∅ |}.


(** A world with a file from an earlier run. *)
Definition earlier_world : World :=
  {| log := []; files := {[ "out.geojson.gz" := "gzip:7" ]} |}.

(** A converter with a contour interval under a tenth, and one for a
    variable that the file does not have. *)
Definition fine_converter : @GeoJson float :=
  {| wrf_file := "wrfout_d01"; file_type := "netcdf"; variable := "T2";
     z_level := None; value_min := 0; value_max := 2; contour_interval := 0.0625;
     palette := "jet" |}.

Definition missing_converter : @GeoJson float :=
  {| wrf_file := "wrfout_d01"; file_type := "netcdf"; variable := "Q2";
     z_level := None; value_min := 0; value_max := 2; contour_interval := 0.5;
     palette := "jet" |}.

(** Converters for the GRIB2 file: level 1 of [t], and a variable
    that the file does not have. *)
Definition grib_converter : @GeoJson float :=
  {| wrf_file := "wrfout_d01.grib2"; file_type := "grib2"; variable := "t";
     z_level := Some 1%Z; value_min := 0; value_max := 2; contour_interval := 0.5;
     palette := "jet" |}.

Definition missing_grib_converter : @GeoJson float :=
  {| wrf_file := "wrfout_d01.grib2"; file_type := "grib2"; variable := "q";
     z_level := None; value_min := 0; value_max := 2; contour_interval := 0.5;
     palette := "jet" |}.

(** A converter for the z-level [z] of the NetCDF variable [T]. *)
Definition level_converter (z : Z) : @GeoJson float :=
  {| wrf_file := "wrfout_d01"; file_type := "netcdf"; variable := "T";
     z_level := Some z; value_min := 0; value_max := 2; contour_interval := 0.5;
     palette := "jet" |}.

(** A product list whose second product has no GRIB2 variable. *)
Definition netcdf_only_product : @Product float :=
  {| product_variable := {[ "netcdf" := "U" ]};
     product_range_min := 0; product_range_max := 2;
     product_contour_interval := 0.5; product_palette := "jet";
     product_z_levels := None |}.

Definition partial_runtime : @Runtime float :=
  {| netcdf_Dataset := netcdf_Dataset runtime;
     pygrib_open := pygrib_open runtime;
     pyplot_contourf := pyplot_contourf runtime;
     colors_rgb2hex := colors_rgb2hex runtime;
     dumps_gz := dumps_gz runtime;
     can_open_wb := can_open_wb runtime;
     file_write := file_write runtime;
     geojson_products := [product "T" [1; 2]%Z; netcdf_only_product; product "V" [1]%Z] |}.

(** A converter for a file type that is neither of the two. *)
Definition hdf5_converter : @GeoJson float := with_file_type converter "hdf5".

End Example.

(** * Properties *)

(** ** Indexing *)

Lemma py_index_cases {A} (l : list A) (i : Z) :
  (∃ a, py_index l i = Ok a) ∨ py_index l i = Raise IndexError.
Proof.
  unfold py_index.
  destruct ((0 <=? _) && _); [|by right].
  destruct (l !! _); [left; eauto | by right].
Qed.

Lemma py_index_nonneg {A} (l : list A) (i : Z) (a : A) :
  0 <= i → l !! Z.to_nat i = Some a → py_index l i = Ok a.
Proof.
  intros Hi Hl. unfold py_index.
  apply lookup_lt_Some in Hl as Hlt.
  destruct (i <? 0) eqn:E; [lia|].
  destruct (0 <=? i) eqn:E1; [|lia].
  destruct (i <? Z.of_nat (length l)) eqn:E2; [|lia].
  simpl. by rewrite Hl.
Qed.

Lemma py_index_ok {A} (l : list A) (i : Z) :
  index_ok (length l) i = true → ∃ a, py_index l i = Ok a.
Proof.
  unfold index_ok, py_index. intros Hi.
  apply andb_true_iff in Hi as [H1 H2].
  set (j := if i <? 0 then i + Z.of_nat (length l) else i).
  assert (0 <= j < Z.of_nat (length l)) as Hj.
  { subst j. destruct (i <? 0) eqn:E; lia. }
  destruct (0 <=? j) eqn:E1; [|lia].
  destruct (j <? Z.of_nat (length l)) eqn:E2; [|lia]. simpl.
  destruct (lookup_lt_is_Some_2 l (Z.to_nat j)) as [a Ha]; [lia|].
  rewrite Ha. eauto.
Qed.

Lemma py_index_bad {A} (l : list A) (i : Z) :
  index_ok (length l) i = false → py_index l i = Raise IndexError.
Proof.
  unfold index_ok, py_index. intros Hi.
  apply andb_false_iff in Hi.
  set (j := if i <? 0 then i + Z.of_nat (length l) else i).
  destruct ((0 <=? j) && (j <? Z.of_nat (length l))) eqn:E; [|done].
  apply andb_true_iff in E as [E1 E2].
  subst j. destruct (i <? 0) eqn:E3; lia.
Qed.

Lemma lookup_map {A B} (f : A → B) (l : list A) (i : nat) :
  map f l !! i = f <$> l !! i.
Proof.
  revert i. induction l as [|a l IH]; intros [|i]; simpl; auto.
Qed.

Lemma py_index_map {A B} (f : A → B) (l : list A) (i : Z) :
  py_index (map f l) i = let* a := py_index l i in Ok (f a).
Proof.
  unfold py_index. rewrite length_map, lookup_map.
  destruct ((0 <=? _) && _); [|done].
  by destruct (l !! _).
Qed.

Lemma nd_index_ok {F} (items : list (ndarray F)) (i : Z) (item : ndarray F) :
  py_index items i = Ok item → nd_index (Axis items) i = Ok item.
Proof. intros Hi. simpl. by rewrite Hi. Qed.

Lemma nd_index_bad {F} (items : list (ndarray F)) (i : Z) :
  index_ok (length items) i = false →
  nd_index (Axis items) i = Raise (nd_index_error i).
Proof. intros Hi. simpl. by rewrite (py_index_bad items i Hi). Qed.

Lemma nd_index_error_long (i : Z) :
  i < 9223372036854775808 → nd_index_error i = IndexError.
Proof.
  intros Hi. unfold nd_index_error.
  destruct (9223372036854775808 <=? i) eqn:E; [lia | done].
Qed.

(** ** Rationals *)

Lemma Qtrunc_floor (q : Q) : (0 <= q)%Q → Qtrunc q = Qfloor q.
Proof.
  destruct q as [n d]. unfold Qle, Qtrunc, Qfloor. simpl. intros Hn.
  apply Z.quot_div_nonneg; lia.
Qed.

Lemma Qfloor_nonneg (q : Q) : (0 <= q)%Q → 0 <= Qfloor q.
Proof.
  intros Hq. rewrite <- (Qfloor_Z 0). by apply Qfloor_resp_le.
Qed.

Lemma Qfloor_upper (q : Q) (n : Z) : (q <= inject_Z n)%Q → Qfloor q <= n.
Proof.
  intros Hq. rewrite <- (Qfloor_Z n). by apply Qfloor_resp_le.
Qed.

Lemma Qfloor_lower (q : Q) (n : Z) : (inject_Z n <= q)%Q → n <= Qfloor q.
Proof.
  intros Hq. rewrite <- (Qfloor_Z n). by apply Qfloor_resp_le.
Qed.

(** ** The mapper *)

Section MapperFacts.
Context {F : Type} `{PyFloat F}.

Lemma int_eq_float_finite (n : Z) (x : F) (q : Q) :
  fval x = Finite q → int_eq_float n x = true ↔ (inject_Z n == q)%Q.
Proof.
  intros Hx. unfold int_eq_float. rewrite Hx. apply Qeq_bool_iff.
Qed.

Lemma grid_get_rows (rows : list (list F)) (ncols : nat) (y x : Z) :
  rectangular rows ncols →
  if index_ok (length rows) y
  then if index_ok ncols x
       then ∃ v, grid_get (nd_of_rows rows) y x = Ok v
       else grid_get (nd_of_rows rows) y x = Raise (nd_index_error x)
  else grid_get (nd_of_rows rows) y x = Raise (nd_index_error y).
Proof.
  intros Hrect. unfold grid_get, nd_of_rows.
  destruct (index_ok (length rows) y) eqn:Ey; simpl.
  - rewrite py_index_map.
    destruct (py_index_ok rows y Ey) as [row Hrow]. rewrite Hrow. simpl.
    assert (length row = ncols) as Hlen.
    { unfold py_index in Hrow.
      destruct ((0 <=? _) && _); [|done].
      destruct (rows !! _) as [r|] eqn:E; [|done].
      injection Hrow as ->.
      eapply (proj1 (Forall_lookup _ _) Hrect); eauto. }
    rewrite py_index_map.
    destruct (index_ok ncols x) eqn:Ex.
    + rewrite <- Hlen in Ex. destruct (py_index_ok row x Ex) as [v Hv].
      rewrite Hv. simpl. eauto.
    + rewrite <- Hlen in Ex. by rewrite (py_index_bad row x Ex).
  - rewrite py_index_map. by rewrite (py_index_bad rows y Ey).
Qed.

Lemma grid_get_cell (rows : list (list F)) (y x : Z) (v : F) :
  cell rows y x = Some v → grid_get (nd_of_rows rows) y x = Ok v.
Proof.
  unfold cell. destruct ((0 <=? y) && (0 <=? x)) eqn:E; [|done].
  apply andb_true_iff in E as [Ey Ex].
  destruct (rows !! Z.to_nat y) as [row|] eqn:Erow; [|done]. simpl. intros Hv.
  unfold grid_get, nd_of_rows. simpl. rewrite py_index_map.
  rewrite (py_index_nonneg rows y row); [|lia|done]. simpl.
  rewrite py_index_map.
  by rewrite (py_index_nonneg row x v); [|lia|done].
Qed.

Lemma cell_in_bounds (rows : list (list F)) (ncols : nat) (y x : Z) :
  rectangular rows ncols →
  0 <= y < Z.of_nat (length rows) → 0 <= x < Z.of_nat ncols →
  ∃ v, cell rows y x = Some v.
Proof.
  intros Hrect Hy Hx. unfold cell.
  destruct (0 <=? y) eqn:Ey; [|lia]. destruct (0 <=? x) eqn:Ex; [|lia]. simpl.
  destruct (lookup_lt_is_Some_2 rows (Z.to_nat y)) as [row Hrow]; [lia|].
  rewrite Hrow. simpl.
  assert (length row = ncols) as Hlen
    by (eapply (proj1 (Forall_lookup _ _) Hrect); eauto).
  apply lookup_lt_is_Some_2. lia.
Qed.

(** The mapper at a finite point: the indices it computes, then the
    four reads and the blend. *)
Lemma grid_to_lonlat_finite (grid_lat grid_lon : ndarray F) (x y : F) (qx qy : Q) :
  fval x = Finite qx → fval y = Finite qy →
  _grid_to_lonlat grid_lat grid_lon x y =
    let x1 := Qtrunc qx in
    let y1 := Qtrunc qy in
    let x2 := if int_eq_float x1 (round5 x) then x1 else x1 + 1 in
    let y2 := if int_eq_float y1 (round5 y) then y1 else y1 + 1 in
    let* lat1 := grid_get grid_lat y1 x1 in
    let* lon1 := grid_get grid_lon y1 x1 in
    let* lat2 := grid_get grid_lat y2 x2 in
    let* lon2 := grid_get grid_lon y2 x2 in
    Ok (round5 (fadd lon1 (fmul (fsub lon2 lon1) (fsub x (of_int x1)))),
        round5 (fadd lat1 (fmul (fsub lat2 lat1) (fsub y (of_int y1))))).
Proof.
  intros Hx Hy. unfold _grid_to_lonlat, py_int. rewrite Hx, Hy. simpl.
  destruct (int_eq_float (Qtrunc qx) (round5 x));
    destruct (int_eq_float (Qtrunc qy) (round5 y)); reflexivity.
Qed.

End MapperFacts.

Section MapperTheorems.
Context {F : Type} `{PyFloat F}.

(** C4.  On a grid of [nrows] rows and [ncols] columns, at a point
    [(x, y)] with [0 <= x <= ncols - 1] and [0 <= y <= nrows - 1], the
    mapper returns
    [(round(lon1 + (lon2 - lon1) * (x - x1), 5),
      round(lat1 + (lat2 - lat1) * (y - y1), 5))]
    where [x1 = floor(x)], [y1 = floor(y)], [x2] is [x1] when
    [round(x, 5)] equals [x1] and [x1 + 1] otherwise (the same for
    [y2]), and [lat1], [lon1], [lat2], [lon2] are the elements of the
    coordinate grids at the two diagonal corners [(y1, x1)] and
    [(y2, x2)]: no other element is read. *)
Theorem grid_to_lonlat_diagonal_blend
    (lat lon : list (list F)) (ncols : nat) (x y : F) (qx qy : Q) :
  rectangular lat ncols → rectangular lon ncols → length lon = length lat →
  fval x = Finite qx → fval y = Finite qy →
  (0 <= qx)%Q → (qx <= inject_Z (Z.of_nat ncols - 1))%Q →
  (0 <= qy)%Q → (qy <= inject_Z (Z.of_nat (length lat) - 1))%Q →
  keeps_integers x → keeps_integers y →
  let x1 := Qfloor qx in
  let y1 := Qfloor qy in
  let x2 := if int_eq_float x1 (round5 x) then x1 else x1 + 1 in
  let y2 := if int_eq_float y1 (round5 y) then y1 else y1 + 1 in
  ∃ lat1 lon1 lat2 lon2 : F,
    cell lat y1 x1 = Some lat1 ∧ cell lon y1 x1 = Some lon1 ∧
    cell lat y2 x2 = Some lat2 ∧ cell lon y2 x2 = Some lon2 ∧
    _grid_to_lonlat (nd_of_rows lat) (nd_of_rows lon) x y =
      Ok (round5 (fadd lon1 (fmul (fsub lon2 lon1) (fsub x (of_int x1)))),
          round5 (fadd lat1 (fmul (fsub lat2 lat1) (fsub y (of_int y1))))).
Proof.
  intros Hlat Hlon Hlen Hx Hy Hx0 Hx1 Hy0 Hy1 Kx Ky x1 y1 x2 y2.
  assert (0 <= x1 <= Z.of_nat ncols - 1) as Bx1
    by (split; [by apply Qfloor_nonneg | by apply Qfloor_upper]).
  assert (0 <= y1 <= Z.of_nat (length lat) - 1) as By1
    by (split; [by apply Qfloor_nonneg | by apply Qfloor_upper]).
  assert (x1 <= x2 <= Z.of_nat ncols - 1) as Bx2.
  { subst x2. destruct (int_eq_float x1 (round5 x)) eqn:E; [lia|].
    destruct (Z.eq_dec x1 (Z.of_nat ncols - 1)) as [Heq|]; [|lia].
    exfalso. assert (int_eq_float x1 x = true) as Hint.
    { apply (int_eq_float_finite _ _ qx Hx). apply Qle_antisym.
      - apply Qfloor_le.
      - by rewrite Heq. }
    apply Kx in Hint. congruence. }
  assert (y1 <= y2 <= Z.of_nat (length lat) - 1) as By2.
  { subst y2. destruct (int_eq_float y1 (round5 y)) eqn:E; [lia|].
    destruct (Z.eq_dec y1 (Z.of_nat (length lat) - 1)) as [Heq|]; [|lia].
    exfalso. assert (int_eq_float y1 y = true) as Hint.
    { apply (int_eq_float_finite _ _ qy Hy). apply Qle_antisym.
      - apply Qfloor_le.
      - by rewrite Heq. }
    apply Ky in Hint. congruence. }
  destruct (cell_in_bounds lat ncols y1 x1) as [lat1 Hlat1]; [done|lia|lia|].
  destruct (cell_in_bounds lon ncols y1 x1) as [lon1 Hlon1]; [done|lia|lia|].
  destruct (cell_in_bounds lat ncols y2 x2) as [lat2 Hlat2]; [done|lia|lia|].
  destruct (cell_in_bounds lon ncols y2 x2) as [lon2 Hlon2]; [done|lia|lia|].
  exists lat1, lon1, lat2, lon2. repeat split; try done.
  rewrite (grid_to_lonlat_finite _ _ x y qx qy Hx Hy).
  rewrite !Qtrunc_floor by done. cbv zeta. fold x1 y1. fold x2 y2.
  rewrite (grid_get_cell _ _ _ _ Hlat1), (grid_get_cell _ _ _ _ Hlon1).
  rewrite (grid_get_cell _ _ _ _ Hlat2), (grid_get_cell _ _ _ _ Hlon2).
  reflexivity.
Qed.

(** C2, amended.  The mapper checks no bound itself.  At a finite
    point it returns a pair when each of the four indices it computes
    is one that indexing accepts on its axis (from minus the length to
    the length, excluded); otherwise it raises what numpy raises for
    the first index refused, in the order [y1], [x1], [y2], [x2] of
    their use: [OverflowError] for an index from [2**63] to
    [2**64 - 1], [IndexError] for any other.  In particular it returns
    nothing whenever [x >= ncols] or [y >= nrows]: [y1], or else [x1],
    is refused, with [IndexError] when [x] and [y] are below
    [2**63]. *)
Theorem grid_to_lonlat_index_check
    (lat lon : list (list F)) (ncols : nat) (x y : F) (qx qy : Q) :
  rectangular lat ncols → rectangular lon ncols → length lon = length lat →
  fval x = Finite qx → fval y = Finite qy →
  let nrows := length lat in
  let x1 := Qtrunc qx in
  let y1 := Qtrunc qy in
  let x2 := if int_eq_float x1 (round5 x) then x1 else x1 + 1 in
  let y2 := if int_eq_float y1 (round5 y) then y1 else y1 + 1 in
  match first_refused [(nrows, y1); (ncols, x1); (nrows, y2); (ncols, x2)] with
  | None => ∃ lonlat, _grid_to_lonlat (nd_of_rows lat) (nd_of_rows lon) x y = Ok lonlat
  | Some i =>
      _grid_to_lonlat (nd_of_rows lat) (nd_of_rows lon) x y = Raise (nd_index_error i)
  end
  ∧ ((inject_Z (Z.of_nat ncols) <= qx ∨ inject_Z (Z.of_nat nrows) <= qy)%Q →
     _grid_to_lonlat (nd_of_rows lat) (nd_of_rows lon) x y
     = Raise (nd_index_error (if index_ok nrows y1 then x1 else y1))
     ∧ ((qx < inject_Z 9223372036854775808)%Q →
        (qy < inject_Z 9223372036854775808)%Q →
        _grid_to_lonlat (nd_of_rows lat) (nd_of_rows lon) x y = Raise IndexError)).
Proof.
  intros Hlat Hlon Hlen Hx Hy nrows x1 y1 x2 y2.
  assert (match first_refused [(nrows, y1); (ncols, x1); (nrows, y2); (ncols, x2)] with
          | None => ∃ lonlat,
              _grid_to_lonlat (nd_of_rows lat) (nd_of_rows lon) x y = Ok lonlat
          | Some i =>
              _grid_to_lonlat (nd_of_rows lat) (nd_of_rows lon) x y
              = Raise (nd_index_error i)
          end) as Hmain.
  { rewrite (grid_to_lonlat_finite _ _ x y qx qy Hx Hy). cbv zeta.
    fold x1 y1. fold x2 y2.
    pose proof (grid_get_rows lat ncols y1 x1 Hlat) as G1.
    pose proof (grid_get_rows lon ncols y1 x1 Hlon) as G2.
    pose proof (grid_get_rows lat ncols y2 x2 Hlat) as G3.
    pose proof (grid_get_rows lon ncols y2 x2 Hlon) as G4.
    rewrite Hlen in G2, G4. fold nrows in G1, G2, G3, G4. simpl.
    destruct (index_ok nrows y1); [|by rewrite G1].
    destruct (index_ok ncols x1); [|by rewrite G1].
    destruct G1 as [lat1 ->], G2 as [lon1 ->]. simpl.
    destruct (index_ok nrows y2); [|by rewrite G3].
    destruct (index_ok ncols x2); [|by rewrite G3].
    destruct G3 as [lat2 ->], G4 as [lon2 ->]. simpl. eauto. }
  split; [exact Hmain|]. intros Hout.
  assert (_grid_to_lonlat (nd_of_rows lat) (nd_of_rows lon) x y
          = Raise (nd_index_error (if index_ok nrows y1 then x1 else y1))) as Hraise.
  { simpl in Hmain. destruct (index_ok nrows y1) eqn:Ey; [|exact Hmain].
    destruct (index_ok ncols x1) eqn:Ex; [|exact Hmain]. exfalso.
    unfold index_ok in Ey, Ex.
    apply andb_true_iff in Ey as [_ Ey]. apply andb_true_iff in Ex as [_ Ex].
    destruct Hout as [Hq | Hq].
    - assert (0 <= qx)%Q by (eapply Qle_trans; [|exact Hq]; unfold Qle; simpl; lia).
      subst x1. rewrite Qtrunc_floor in Ex by done. apply Qfloor_lower in Hq. lia.
    - assert (0 <= qy)%Q by (eapply Qle_trans; [|exact Hq]; unfold Qle; simpl; lia).
      subst y1. rewrite Qtrunc_floor in Ey by done. apply Qfloor_lower in Hq. lia. }
  split; [exact Hraise|]. intros Bx By. rewrite Hraise. f_equal.
  apply nd_index_error_long.
  assert (∀ q : Q, (q < inject_Z 9223372036854775808)%Q →
                   Qtrunc q < 9223372036854775808) as Hlong.
  { intros q Hq. destruct (Qlt_le_dec q 0) as [Hneg | Hpos].
    - assert (Qtrunc q <= 0); [|lia].
      destruct q as [n d]. unfold Qlt in Hneg. simpl in Hneg. unfold Qtrunc. simpl.
      replace n with (- (- n)) by lia. rewrite Z.quot_opp_l by lia.
      pose proof (Z.quot_pos (- n) (Z.pos d)). lia.
    - rewrite Qtrunc_floor by done.
      assert (inject_Z (Qfloor q) < inject_Z 9223372036854775808)%Q as Hlt
        by (eapply Qle_lt_trans; [apply Qfloor_le | exact Hq]).
      by rewrite <- Zlt_Qlt in Hlt. }
  destruct (index_ok nrows y1); [by apply Hlong | by apply Hlong].
Qed.

End MapperTheorems.

(** At [x = 0.5] and [y = 1] on the example grid: [x1 = 0], [x2 = 1],
    [y1 = y2 = 1]; the corners read are [(1, 0)] and [(1, 1)]. *)
Lemma grid_to_lonlat_diagonal_blend_witness :
  _grid_to_lonlat Example.grid_lat Example.grid_lon 0.5%float 1%float
  = Ok (round5 (fadd (-105.25) (fmul (fsub (-104.25) (-105.25)) (fsub 0.5 (of_int 0)))),
        round5 (fadd 41 (fmul (fsub 41.5 41) (fsub 1 (of_int 1)))))%float.
Proof.
  destruct (grid_to_lonlat_diagonal_blend Example.lat Example.lon 2 0.5%float 1%float
              (4503599627370496 # 9007199254740992) (4503599627370496 # 4503599627370496))
    as (lat1 & lon1 & lat2 & lon2 & H1 & H2 & H3 & H4 & H5).
  - repeat constructor.
  - repeat constructor.
  - reflexivity.
  - reflexivity.
  - reflexivity.
  - unfold Qle; simpl; lia.
  - unfold Qle; simpl; lia.
  - unfold Qle; simpl; lia.
  - unfold Qle; simpl; lia.
  - intros n Hn.
    assert (fval 0.5%float = Finite (4503599627370496 # 9007199254740992)) as Hv
      by reflexivity.
    apply (int_eq_float_finite n _ _ Hv) in Hn.
    unfold Qeq in Hn; simpl in Hn; lia.
  - intros n Hn.
    assert (fval 1%float = Finite (4503599627370496 # 4503599627370496)) as Hv
      by reflexivity.
    apply (int_eq_float_finite n _ _ Hv) in Hn.
    unfold Qeq in Hn; simpl in Hn.
    assert (n = 1) as -> by lia. reflexivity.
  - vm_compute in H1, H2, H3, H4.
    injection H1 as <-. injection H2 as <-. injection H3 as <-. injection H4 as <-.
    exact H5.
Defined.

(** C2, as stated, fails: on the example grid of 2 columns, [x = -1]
    is outside [[0, 1]], and the mapper returns the coordinates of
    column 1, the last one. *)
Lemma grid_to_lonlat_wraps_negative_index :
  outside_extent 2 2 (-1)%float 0%float ∧
  _grid_to_lonlat Example.grid_lat Example.grid_lon (-1)%float 0%float
  = Ok (-104, 40.5)%float.
Proof.
  split.
  - unfold outside_extent. simpl. left. reflexivity.
  - vm_compute. reflexivity.
Qed.

(** On the example grid: [x = 2] is refused with [IndexError],
    [x = -1] is not. *)
Lemma grid_to_lonlat_index_check_witness :
  _grid_to_lonlat Example.grid_lat Example.grid_lon 2%float 0%float = Raise IndexError.
Proof.
  destruct (grid_to_lonlat_index_check Example.lat Example.lon 2 2%float 0%float
              (4503599627370496 # 2251799813685248) 0) as [_ Hout].
  - repeat constructor.
  - repeat constructor.
  - reflexivity.
  - reflexivity.
  - reflexivity.
  - destruct Hout as [_ Hlong].
    + left. unfold Qle; simpl; lia.
    + apply Hlong; unfold Qlt; simpl; lia.
Defined.

(** ** The ring transform *)

Section RingFacts.
Context {F : Type} `{PyFloat F}.

(** The loop appends one mapped point per point of the polygon. *)
Lemma polygon_points_spec (grid_lat grid_lon : ndarray F)
    (polygon points out : list (F * F)) :
  polygon_points grid_lat grid_lon polygon points = Ok out ↔
  ∃ mapped, out = (points ++ mapped)%list
            ∧ Forall2 (maps_to grid_lat grid_lon) polygon mapped.
Proof.
  revert points out. induction polygon as [|point rest IH]; intros points out; simpl.
  - split.
    + intros [= <-]. exists []. split; [by rewrite app_nil_r | constructor].
    + intros (mapped & -> & Hm). inversion Hm. by rewrite app_nil_r.
  - split.
    + destruct (_grid_to_lonlat _ _ _ _) as [lonlat|] eqn:E; simpl; [|done].
      intros Hrest. apply IH in Hrest as (mapped & -> & Hm).
      exists (lonlat :: mapped). split; [by rewrite <- app_assoc | by constructor].
    + intros (mapped & -> & Hm). inversion Hm as [|? lonlat ? mapped' Hp Hm']; subst.
      unfold maps_to in Hp. rewrite Hp. simpl. apply IH.
      exists mapped'. split; [by rewrite <- app_assoc | done].
Qed.

Lemma polygon_to_coord_array_spec (grid_lat grid_lon : ndarray F)
    (polygon out : list (F * F)) :
  _polygon_to_coord_array grid_lat grid_lon polygon = Ok out ↔
  Forall2 (maps_to grid_lat grid_lon) polygon out.
Proof.
  unfold _polygon_to_coord_array. rewrite polygon_points_spec. split.
  - by intros (mapped & -> & Hm).
  - intros Hm. by exists out.
Qed.

Lemma mappable_all (grid_lat grid_lon : ndarray F) (polygon : list (F * F)) :
  Forall (mappable grid_lat grid_lon) polygon →
  ∃ out, Forall2 (maps_to grid_lat grid_lon) polygon out.
Proof.
  induction 1 as [|point rest Hp _ [out IH]].
  - exists []. constructor.
  - unfold mappable in Hp.
    destruct (_grid_to_lonlat grid_lat grid_lon (fst point) (snd point)) as [q|] eqn:E;
      [|done].
    exists (q :: out). by constructor.
Qed.

(** C7.  When the mapper returns at every point of a ring, the
    transform returns a ring with the same number of points, point
    [i] of which is the image of point [i] of the input: nothing is
    dropped, added or reordered.  The empty ring gives the empty
    ring. *)
Theorem ring_transform_preserves_points (grid_lat grid_lon : ndarray F)
    (ring : list (F * F)) :
  _polygon_to_coord_array grid_lat grid_lon [] = Ok [] ∧
  (Forall (mappable grid_lat grid_lon) ring →
   ∃ geo_ring,
     _polygon_to_coord_array grid_lat grid_lon ring = Ok geo_ring
     ∧ length geo_ring = length ring
     ∧ ∀ (i : nat) (point : F * F), ring !! i = Some point →
         ∃ lonlat, geo_ring !! i = Some lonlat
                   ∧ _grid_to_lonlat grid_lat grid_lon (fst point) (snd point)
                     = Ok lonlat).
Proof.
  split; [reflexivity|]. intros Hall.
  destruct (mappable_all _ _ _ Hall) as [geo_ring Hm].
  exists geo_ring. split; [by apply polygon_to_coord_array_spec|].
  split; [symmetry; by eapply Forall2_length|].
  intros i point Hi.
  destruct (Forall2_lookup_l _ _ _ _ _ Hm Hi) as (lonlat & Hl & Hp).
  by exists lonlat.
Qed.

End RingFacts.

(** A ring of 4 points of the example grid gives a ring of 4 points. *)
Lemma ring_transform_preserves_points_witness :
  ∃ geo_ring,
    _polygon_to_coord_array Example.grid_lat Example.grid_lon Example.ring4 = Ok geo_ring
    ∧ length geo_ring = 4%nat.
Proof.
  destruct (proj2 (ring_transform_preserves_points
                     Example.grid_lat Example.grid_lon Example.ring4))
    as (geo_ring & Hg & Hlen & _).
  - repeat constructor.
  - exists geo_ring. split; [exact Hg | exact Hlen].
Defined.

(** ** The contour levels *)

Lemma range_length_pos_step (lo hi step k : Z) :
  0 < step → 0 <= k →
  (k < range_length lo hi step ↔ lo + k * step < hi).
Proof.
  intros Hs Hk. unfold range_length.
  destruct (0 <? step) eqn:E; [|lia].
  destruct (lo <? hi) eqn:E1.
  - assert (0 <= hi - lo - 1) by lia.
    pose proof (Z.div_mod (hi - lo - 1) step ltac:(lia)) as Hdm.
    pose proof (Z.mod_pos_bound (hi - lo - 1) step Hs) as Hmod.
    split; intros Hlt; nia.
  - split; [lia|nia].
Qed.

Lemma lookup_map_seq {A} (f : nat → A) (n k : nat) :
  (k < n)%nat → map f (seq 0 n) !! k = Some (f k).
Proof.
  intros Hk. rewrite lookup_map.
  assert (seq 0 n !! k = Some k) as ->; [|done].
  by apply (lookup_seq_lt 0 n k).
Qed.

Section LevelFacts.
Context {F : Type} `{PyFloat F}.

(** C5.  With [lo], [hi] and [step] the truncations of [min * 10],
    [max * 10] and [contour_interval * 10], and [step] positive, the
    levels are the integers [lo, lo + step, lo + 2 * step, ...] below
    [hi], each divided by 10: level [k] is the single division
    [(lo + k * step) / 10]; no level is computed from another. *)
Theorem contour_levels_fixed_point (self : @GeoJson F) (lo hi step : Z) :
  py_int (fmul (value_min self) (of_int 10)) = Ok lo →
  py_int (fmul (value_max self) (of_int 10)) = Ok hi →
  py_int (fmul (contour_interval self) (of_int 10)) = Ok step →
  0 < step →
  ∃ levels,
    contour_levels self = Ok levels
    ∧ (∀ k : nat, (k < length levels)%nat ↔ lo + Z.of_nat k * step < hi)
    ∧ (∀ k : nat, (k < length levels)%nat →
         levels !! k = Some (int_truediv (lo + Z.of_nat k * step) 10)).
Proof.
  intros Hlo Hhi Hstep Hpos. unfold contour_levels.
  rewrite Hlo, Hhi, Hstep. simpl. unfold py_range.
  destruct (step =? 0) eqn:E; [lia|]. simpl.
  eexists. split; [reflexivity|].
  assert (∀ k : nat, (k < Z.to_nat (range_length lo hi step))%nat
                      ↔ lo + Z.of_nat k * step < hi) as Hlen.
  { intros k. rewrite <- range_length_pos_step by lia. lia. }
  rewrite !length_map, length_seq. split; [exact Hlen|].
  intros k Hk. rewrite lookup_map, lookup_map_seq by done. reflexivity.
Qed.

End LevelFacts.

(** For [min = 0.0], [max = 2.0] and an interval of [0.5], on binary64
    numbers: the levels are the floats 0.0, 0.5, 1.0 and 1.5. *)
Lemma contour_levels_fixed_point_witness :
  contour_levels Example.converter = Ok [0; 0.5; 1; 1.5]%float.
Proof.
  destruct (contour_levels_fixed_point Example.converter 0 20 5)
    as (levels & Hl & Hlen & Hk).
  - reflexivity.
  - reflexivity.
  - reflexivity.
  - lia.
  - rewrite Hl. f_equal.
    pose proof (proj2 (Hlen 0%nat) ltac:(lia)) as L0.
    pose proof (proj2 (Hlen 3%nat) ltac:(lia)) as L3.
    pose proof (Hlen 4%nat) as L4.
    destruct levels as [|a [|b [|c [|d [|e rest]]]]]; simpl in *; try lia.
    pose proof (Hk 0%nat ltac:(lia)) as K0. pose proof (Hk 1%nat ltac:(lia)) as K1.
    pose proof (Hk 2%nat ltac:(lia)) as K2. pose proof (Hk 3%nat ltac:(lia)) as K3.
    vm_compute in K0, K1, K2, K3.
    injection K0 as ->. injection K1 as ->. injection K2 as ->. injection K3 as ->.
    reflexivity.
Defined.

(** ** The readers and the file type *)

Section ReaderFacts.
Context {F : Type} `{PyFloat F}.

Lemma py_index_first {A} (l : list A) (a : A) :
  head l = Some a → py_index l 0 = Ok a.
Proof. destruct l as [|b l]; [done|]. by intros [= ->]. Qed.

(** C9.  A converter built with [z_level = 0] behaves as one built
    without a z-level: [0] is false, so both readers and [convert] do
    the same in the two cases.  With [z_level = 0] the NetCDF reader
    returns [data[0]], the whole field of the first time step, with
    all its levels if it has several, and not [data[0][0]]; and the
    GRIB2 reader returns the values of the first message named after
    the variable. *)
Theorem z_level_zero_reads_as_none (rt : Runtime) (self : @GeoJson F)
    (out_file : option string) (w : World) :
  let zero := with_z_level self (Some 0) in
  let none := with_z_level self None in
  (_read_from_netcdf rt zero = _read_from_netcdf rt none
   ∧ _read_from_grib rt zero = _read_from_grib rt none
   ∧ convert rt zero out_file w = convert rt none out_file w)
  ∧ (∀ (wrf : gmap string (ndarray F)) (data field xlat xlong grid_lat grid_lon : ndarray F),
       netcdf_Dataset rt (wrf_file self) = Ok wrf →
       wrf !! variable self = Some data → nd_index data 0 = Ok field →
       wrf !! "XLAT" = Some xlat → nd_index xlat 0 = Ok grid_lat →
       wrf !! "XLONG" = Some xlong → nd_index xlong 0 = Ok grid_lon →
       _read_from_netcdf rt zero = Ok (field, grid_lat, grid_lon))
  ∧ (∀ (wrf : list (@GribMessage F)) (message nlat elon : @GribMessage F),
       pygrib_open rt (wrf_file self) = Ok wrf →
       head (filter (fun m => shortName m = variable self) wrf) = Some message →
       head (filter (fun m => shortName m = "nlat") wrf) = Some nlat →
       head (filter (fun m => shortName m = "elon") wrf) = Some elon →
       _read_from_grib rt zero
       = Ok (values message, values nlat,
             nd_map (fun v => fsub v (of_int 360)) (values elon))).
Proof.
  intros zero none.
  assert (_read_from_netcdf rt zero = _read_from_netcdf rt none) as Hn by reflexivity.
  assert (_read_from_grib rt zero = _read_from_grib rt none) as Hg by reflexivity.
  split; [|split].
  - split; [exact Hn|]. split; [exact Hg|].
    unfold convert. simpl. rewrite Hn, Hg. reflexivity.
  - intros wrf data field xlat xlong grid_lat grid_lon
      Hopen Hdata Hfield Hxlat Hlat Hxlong Hlon.
    unfold _read_from_netcdf, dataset_get, zero. simpl.
    rewrite Hopen. simpl. rewrite Hdata. simpl. rewrite Hfield. simpl.
    rewrite Hxlat. simpl. rewrite Hlat. simpl. rewrite Hxlong. simpl.
    by rewrite Hlon.
  - intros wrf message nlat elon Hopen Hmessage Hnlat Helon.
    unfold _read_from_grib, grib_select, zero. simpl.
    rewrite Hopen. simpl.
    destruct (filter (fun m => shortName m = variable self) wrf) as [|m ms] eqn:Em;
      [done|].
    destruct (filter (fun m => shortName m = "nlat") wrf) as [|l ls] eqn:El; [done|].
    destruct (filter (fun m => shortName m = "elon") wrf) as [|o os] eqn:Eo; [done|].
    simpl in Hmessage, Hnlat, Helon.
    injection Hmessage as ->. injection Hnlat as ->. injection Helon as ->.
    reflexivity.
Qed.

(** C8.  For a file type other than ['grib2'] and ['netcdf'],
    [convert] reads nothing and writes nothing: it logs the error and
    returns [None], with or without an output file.  It raises
    nothing, so a batch that waits for the result of such a call goes
    on to the next one. *)
Theorem invalid_file_type_no_output (rt : Runtime) (self : @GeoJson F)
    (out_file : option string) (w : World) :
  file_type self ≠ "grib2" → file_type self ≠ "netcdf" →
  let '(w', r) := convert rt self out_file w in
  r = Ok None
  ∧ files w' = files w
  ∧ log w' = (log w ++ [("INFO", "Converting " +:+ variable self +:+ " to "
                                  +:+ str_out_file out_file);
                        ("ERROR", invalid_type_message self)])%list
  ∧ ∀ before after : list (result (option (@FeatureCollection F))),
      wait_results (before ++ r :: after) = wait_results (before ++ after).
Proof.
  intros Hg Hn. unfold convert.
  apply String.eqb_neq in Hg, Hn. rewrite Hg, Hn. simpl.
  split; [done|]. split; [done|]. split; [by rewrite <- app_assoc|].
  intros before after. induction before as [|b before IH]; simpl; [done|].
  destruct b; simpl; [exact IH | done].
Qed.

End ReaderFacts.

(** On the example, with [z_level = 0]: the NetCDF reader returns the
    three levels of [T] together, and the GRIB2 reader its first
    message named [t]. *)
Lemma z_level_zero_reads_as_none_witness :
  _read_from_netcdf Example.runtime (with_z_level (Example.level_converter 2) (Some 0))
  = Ok (Axis [Example.field 10 20 30 40; Example.field 11 21 31 41;
              Example.field 12 22 32 42],
        Example.grid_lat, Example.grid_lon)
  ∧ ∃ grid_lon,
      _read_from_grib Example.runtime (with_z_level Example.grib_converter (Some 0))
      = Ok (Example.field 10 20 30 40, Example.grid_lat, grid_lon).
Proof.
  split.
  - pose proof (z_level_zero_reads_as_none Example.runtime (Example.level_converter 2)
                  None Example.world) as Hzero.
    cbv zeta in Hzero. destruct Hzero as (_ & Hnetcdf & _).
    apply (Hnetcdf Example.dataset
             (Axis [Axis [Example.field 10 20 30 40; Example.field 11 21 31 41;
                          Example.field 12 22 32 42]])
             (Axis [Example.field 10 20 30 40; Example.field 11 21 31 41;
                    Example.field 12 22 32 42])
             (Axis [Example.grid_lat]) (Axis [Example.grid_lon])
             Example.grid_lat Example.grid_lon).
    + reflexivity.
    + vm_compute. reflexivity.
    + reflexivity.
    + vm_compute. reflexivity.
    + reflexivity.
    + vm_compute. reflexivity.
    + reflexivity.
  - pose proof (z_level_zero_reads_as_none Example.runtime Example.grib_converter
                  None Example.world) as Hzero.
    cbv zeta in Hzero. destruct Hzero as (_ & _ & Hgrib).
    eexists.
    apply (Hgrib Example.messages
             {| shortName := "t"; values := Example.field 10 20 30 40 |}
             {| shortName := "nlat"; values := Example.grid_lat |}
             {| shortName := "elon";
                values := nd_of_rows [[255; 256]; [254.75; 255.75]]%float |}).
    + reflexivity.
    + reflexivity.
    + reflexivity.
    + reflexivity.
Defined.

(** With the file type ['hdf5'] and an output file: nothing is
    written, [None] is returned. *)
Lemma invalid_file_type_no_output_witness :
  convert Example.runtime Example.hdf5_converter (Some "out.geojson.gz") Example.world
  = ({| log := [("INFO", "Converting T2 to out.geojson.gz");
               ("ERROR", invalid_type_message Example.hdf5_converter)];
        files := ∅ |}, Ok None).
Proof.
  pose proof (invalid_file_type_no_output Example.runtime Example.hdf5_converter
                (Some "out.geojson.gz") Example.world) as T.
  destruct (convert Example.runtime Example.hdf5_converter (Some "out.geojson.gz")
              Example.world) as [w' r].
  destruct T as (-> & Hf & Hl & _).
  - discriminate.
  - discriminate.
  - destruct w' as [l f]. simpl in Hf, Hl. rewrite Hf, Hl. reflexivity.
Defined.

(** ** Reading back the text of a polygon *)

Lemma app_cons (c : ascii) (s t : string) : String c s +:+ t = String c (s +:+ t).
Proof. reflexivity. Qed.

Lemma app_empty_l (t : string) : EmptyString +:+ t = t.
Proof. reflexivity. Qed.

Lemma app_empty_r (s : string) : s +:+ EmptyString = s.
Proof. induction s as [|c s IH]; [done|]. by rewrite app_cons, IH. Qed.

Lemma app_assoc_text (s t u : string) : (s +:+ t) +:+ u = s +:+ (t +:+ u).
Proof. induction s as [|c s IH]; [done|]. by rewrite !app_cons, IH. Qed.

Lemma app_length_text (s t : string) :
  String.length (s +:+ t) = (String.length s + String.length t)%nat.
Proof. induction s as [|c s IH]; [done|]. rewrite app_cons. simpl. by rewrite IH. Qed.

Lemma span_digits_app (s ds r rest : string) :
  span_digits s = (ds, r) → stops_digits rest →
  span_digits (s +:+ rest) = (ds, r +:+ rest).
Proof.
  revert ds r. induction s as [|c s IH]; intros ds r Hs Hrest.
  - injection Hs as <- <-. rewrite !app_empty_l.
    destruct rest as [|c rest]; [done|]. simpl in *. by rewrite Hrest.
  - rewrite app_cons. simpl in *. destruct (is_digit c).
    + destruct (span_digits s) as [ds' r'] eqn:E. injection Hs as <- <-.
      by rewrite (IH ds' r' eq_refl Hrest).
    + injection Hs as <- <-. by rewrite app_cons.
Qed.

Lemma span_digits_split (s ds r : string) :
  span_digits s = (ds, r) → s = ds +:+ r.
Proof.
  revert ds r. induction s as [|c s IH]; intros ds r Hs; simpl in Hs.
  - by injection Hs as <- <-.
  - destruct (is_digit c).
    + destruct (span_digits s) as [ds' r'] eqn:E. injection Hs as <- <-.
      rewrite app_cons. f_equal. by apply IH.
    + by injection Hs as <- <-.
Qed.

Lemma delimited_stops_digits rest : delimited rest → stops_digits rest.
Proof. intros (c & r & -> & [-> | ->]); reflexivity. Qed.

Lemma scan_integer_app (s g r rest : string) :
  scan_integer s = Some (g, r) → stops_digits rest →
  scan_integer (s +:+ rest) = Some (g, r +:+ rest).
Proof.
  intros Hs Hrest. unfold scan_integer in *.
  destruct s as [|c s]; [done|]. rewrite app_cons.
  destruct (Ascii.eqb c "-") eqn:Em.
  - destruct s as [|c' s]; [done|]. rewrite app_cons.
    destruct (Ascii.eqb c' "0"); [by injection Hs as <- <-|].
    destruct (is_digit c'); [|done].
    destruct (span_digits s) as [ds r'] eqn:E. injection Hs as <- <-.
    by rewrite (span_digits_app s ds r' rest E Hrest).
  - destruct (Ascii.eqb c "0"); [by injection Hs as <- <-|].
    destruct (is_digit c); [|done].
    destruct (span_digits s) as [ds r'] eqn:E. injection Hs as <- <-.
    by rewrite (span_digits_app s ds r' rest E Hrest).
Qed.

Lemma scan_integer_split (s g r : string) :
  scan_integer s = Some (g, r) → s = g +:+ r.
Proof.
  unfold scan_integer. destruct s as [|c s]; [done|].
  destruct (Ascii.eqb c "-") eqn:Em.
  - apply Ascii.eqb_eq in Em as ->.
    destruct s as [|c' s]; [done|].
    destruct (Ascii.eqb c' "0") eqn:E0.
    + apply Ascii.eqb_eq in E0 as ->. by intros [= <- <-].
    + destruct (is_digit c'); [|done].
      destruct (span_digits s) as [ds r'] eqn:E. intros [= <- <-].
      by rewrite (span_digits_split s ds r' E).
  - destruct (Ascii.eqb c "0") eqn:E0.
    + apply Ascii.eqb_eq in E0 as ->. by intros [= <- <-].
    + destruct (is_digit c); [|done].
      destruct (span_digits s) as [ds r'] eqn:E. intros [= <- <-].
      by rewrite (span_digits_split s ds r' E).
Qed.

Lemma delimiter_tests (c : ascii) :
  c = ","%char ∨ c = "]"%char →
  is_digit c = false ∧ Ascii.eqb c "." = false ∧ Ascii.eqb c "e" = false
  ∧ Ascii.eqb c "E" = false ∧ Ascii.eqb c "-" = false ∧ Ascii.eqb c "+" = false
  ∧ is_ws c = false.
Proof. intros [-> | ->]; repeat split. Qed.

Lemma scan_frac_app (s g r rest : string) :
  scan_frac s = (g, r) → delimited rest →
  scan_frac (s +:+ rest) = (g, r +:+ rest).
Proof.
  intros Hs Hrest. pose proof (delimited_stops_digits rest Hrest) as Hstop.
  unfold scan_frac in *. destruct s as [|c s].
  - injection Hs as <- <-. rewrite !app_empty_l.
    destruct Hrest as (c & r & -> & Hc).
    destruct (delimiter_tests c Hc) as (_ & -> & _). done.
  - rewrite app_cons. destruct (Ascii.eqb c ".").
    + destruct (span_digits s) as [ds r'] eqn:E.
      rewrite (span_digits_app s ds r' rest E Hstop).
      destruct ds; injection Hs as <- <-; by rewrite ?app_cons.
    + injection Hs as <- <-. by rewrite app_cons.
Qed.

Lemma scan_frac_split (s g r : string) : scan_frac s = (g, r) → s = g +:+ r.
Proof.
  unfold scan_frac. destruct s as [|c s]; [by intros [= <- <-]|].
  destruct (Ascii.eqb c "."); [|by intros [= <- <-]].
  destruct (span_digits s) as [ds r'] eqn:E.
  destruct ds; intros [= <- <-]; [done|].
  rewrite app_cons. f_equal. by apply span_digits_split.
Qed.

Lemma scan_sign_app (s g r rest : string) :
  scan_sign s = (g, r) → delimited rest →
  scan_sign (s +:+ rest) = (g, r +:+ rest).
Proof.
  intros Hs Hrest. unfold scan_sign in *. destruct s as [|c s].
  - injection Hs as <- <-. rewrite !app_empty_l.
    destruct Hrest as (c & r & -> & Hc).
    destruct (delimiter_tests c Hc) as (_ & _ & _ & _ & -> & -> & _). done.
  - rewrite app_cons. destruct (Ascii.eqb c "-" || Ascii.eqb c "+")%bool.
    + by injection Hs as <- <-.
    + injection Hs as <- <-. by rewrite app_cons.
Qed.

Lemma scan_sign_split (s g r : string) : scan_sign s = (g, r) → s = g +:+ r.
Proof.
  unfold scan_sign. destruct s as [|c s]; [by intros [= <- <-]|].
  destruct (Ascii.eqb c "-" || Ascii.eqb c "+")%bool; by intros [= <- <-].
Qed.

Lemma scan_exp_app (s g r rest : string) :
  scan_exp s = (g, r) → delimited rest →
  scan_exp (s +:+ rest) = (g, r +:+ rest).
Proof.
  intros Hs Hrest. pose proof (delimited_stops_digits rest Hrest) as Hstop.
  unfold scan_exp in *. destruct s as [|c s].
  - injection Hs as <- <-. rewrite !app_empty_l.
    destruct Hrest as (c & r & -> & Hc).
    destruct (delimiter_tests c Hc) as (_ & _ & -> & -> & _). done.
  - rewrite app_cons. destruct (Ascii.eqb c "e" || Ascii.eqb c "E")%bool.
    + destruct (scan_sign s) as [sg r1] eqn:Esg.
      rewrite (scan_sign_app s sg r1 rest Esg Hrest).
      destruct (span_digits r1) as [ds r2] eqn:E.
      rewrite (span_digits_app r1 ds r2 rest E Hstop).
      destruct ds; injection Hs as <- <-; by rewrite ?app_cons.
    + injection Hs as <- <-. by rewrite app_cons.
Qed.

Lemma scan_exp_split (s g r : string) : scan_exp s = (g, r) → s = g +:+ r.
Proof.
  unfold scan_exp. destruct s as [|c s]; [by intros [= <- <-]|].
  destruct (Ascii.eqb c "e" || Ascii.eqb c "E")%bool; [|by intros [= <- <-]].
  destruct (scan_sign s) as [sg r1] eqn:Esg.
  destruct (span_digits r1) as [ds r2] eqn:E.
  destruct ds; intros [= <- <-]; [done|].
  rewrite app_cons. f_equal.
  rewrite (scan_sign_split s sg r1 Esg), (span_digits_split r1 _ r2 E).
  by rewrite app_assoc_text.
Qed.

Lemma digit_tests (c : ascii) :
  is_digit c = true ∨ c = "-"%char →
  Ascii.eqb c "[" = false ∧ Ascii.eqb c "]" = false ∧ is_ws c = false.
Proof.
  intros [Hd | ->]; [|done].
  destruct c as [[] [] [] [] [] [] [] []]; try discriminate Hd; done.
Qed.

Lemma scan_integer_head (s g r : string) :
  scan_integer s = Some (g, r) →
  ∃ c s', s = String c s' ∧ (is_digit c = true ∨ c = "-"%char).
Proof.
  unfold scan_integer. destruct s as [|c s]; [done|]. intros Hs.
  exists c, s. split; [done|].
  destruct (Ascii.eqb c "-") eqn:Em; [right; by apply Ascii.eqb_eq|].
  destruct (Ascii.eqb c "0") eqn:E0; [left; by apply Ascii.eqb_eq in E0 as ->|].
  destruct (is_digit c); [by left | done].
Qed.

Section JsonFacts.
Context {F : Type} `{PyFloat F}.

Lemma float_text_head (x : F) :
  prints_as_json x →
  ∃ c s', frepr x = String c s' ∧ Ascii.eqb c "[" = false
          ∧ Ascii.eqb c "]" = false ∧ is_ws c = false.
Proof.
  intros [Ht _]. unfold json_float_text in Ht.
  destruct (scan_integer (frepr x)) as [[g r1]|] eqn:Ei; [|done].
  destruct (scan_integer_head _ _ _ Ei) as (c & s' & Hs & Hc).
  exists c, s'. split; [done|]. by apply digit_tests.
Qed.

(** A float printed by [repr] and followed by a comma or a closing
    bracket is read back. *)
Lemma scan_number_float (x : F) (rest : string) :
  prints_as_json x → delimited rest →
  scan_number (frepr x +:+ rest) = Ok (JFloat x, rest).
Proof.
  intros [Ht Hf] Hrest. unfold json_float_text in Ht. unfold scan_number.
  pose proof (delimited_stops_digits rest Hrest) as Hstop.
  destruct (scan_integer (frepr x)) as [[g r1]|] eqn:Ei; [|done].
  destruct (scan_frac r1) as [f r2] eqn:Ef.
  destruct (scan_exp r2) as [e r3] eqn:Ee.
  rewrite (scan_integer_app _ _ _ rest Ei Hstop).
  rewrite (scan_frac_app _ _ _ rest Ef Hrest).
  rewrite (scan_exp_app _ _ _ rest Ee Hrest).
  assert (r3 = EmptyString) as -> by (destruct r3, f, e; done).
  assert (frepr x = g +:+ f +:+ e) as <-.
  { rewrite (scan_integer_split _ _ _ Ei), (scan_frac_split _ _ _ Ef),
      (scan_exp_split _ _ _ Ee). by rewrite app_empty_r. }
  rewrite Hf, app_empty_l. destruct f, e; done.
Qed.

Lemma scan_once_number (n : nat) (c : ascii) (r : string) :
  Ascii.eqb c "[" = false →
  scan_once (S n) (String c r) = scan_number (String c r).
Proof. intros Hc. simpl. by rewrite Hc. Qed.

Lemma scan_once_open (n : nat) (c : ascii) (r : string) :
  is_ws c = false → Ascii.eqb c "]" = false →
  scan_once (S n) (String "[" (String c r)) = scan_items n (String c r) [].
Proof. intros Hw Hc. simpl. by rewrite Hw, Hc. Qed.

Lemma scan_once_empty (n : nat) (r : string) :
  scan_once (S n) (String "[" (String "]" r)) = Ok (JArray [], r).
Proof. reflexivity. Qed.

Lemma scan_items_last (n : nat) (s r : string) (value : json F) (values : list (json F)) :
  scan_once n s = Ok (value, String "]" r) →
  scan_items (S n) s values = Ok (JArray (values ++ [value]), r).
Proof. intros Hs. simpl. by rewrite Hs. Qed.

Lemma scan_items_next (n : nat) (s r : string) (value : json F) (values : list (json F)) :
  scan_once n s = Ok (value, String "," r) →
  scan_items (S n) s values = scan_items n (skip_ws r) (values ++ [value]).
Proof. intros Hs. simpl. by rewrite Hs. Qed.

Lemma scan_once_float (x : F) (rest : string) (fuel : nat) :
  prints_as_json x → delimited rest → (1 ≤ fuel)%nat →
  scan_once fuel (frepr x +:+ rest) = Ok (JFloat x, rest).
Proof.
  intros Hx Hrest Hfuel. destruct fuel as [|n]; [lia|].
  destruct (float_text_head x Hx) as (c & s' & Hs & Hc & _).
  rewrite <- (scan_number_float x rest Hx Hrest).
  rewrite Hs, app_cons. by apply scan_once_number.
Qed.

Lemma skip_ws_float (x : F) (rest : string) :
  prints_as_json x → skip_ws (frepr x +:+ rest) = frepr x +:+ rest.
Proof.
  intros Hx. destruct (float_text_head x Hx) as (c & s' & Hs & _ & _ & Hw).
  rewrite Hs, app_cons. simpl. by rewrite Hw.
Qed.

Lemma str_point_text (point : F * F) (rest : string) :
  str_point point +:+ rest
  = String "[" (frepr (fst point)
                +:+ String "," (String " " (frepr (snd point) +:+ String "]" rest))).
Proof.
  unfold str_point, str_list. simpl py_join.
  repeat (progress rewrite ?app_assoc_text, ?app_cons, ?app_empty_l).
  reflexivity.
Qed.

Lemma scan_once_point (point : F * F) (rest : string) (fuel : nat) :
  point_prints_as_json point → (4 ≤ fuel)%nat →
  scan_once fuel (str_point point +:+ rest) = Ok (point_json point, rest).
Proof.
  intros [Ha Hb] Hfuel.
  destruct fuel as [|[|[|[|n]]]]; try lia.
  rewrite str_point_text.
  destruct (float_text_head _ Ha) as (c & s' & Hs & Hc1 & Hc2 & Hc3).
  rewrite Hs, app_cons, scan_once_open by done. rewrite <- app_cons, <- Hs.
  assert (∀ k rest', delimited rest' →
            scan_once (S k) (frepr (fst point) +:+ rest') = Ok (JFloat (fst point), rest'))
    as Hfst by (intros; apply scan_once_float; [done|done|lia]).
  assert (∀ k rest', delimited rest' →
            scan_once (S k) (frepr (snd point) +:+ rest') = Ok (JFloat (snd point), rest'))
    as Hsnd by (intros; apply scan_once_float; [done|done|lia]).
  erewrite scan_items_next; [|apply Hfst; eexists _, _; split; [done|by left]].
  change (skip_ws (String " " ?s)) with (skip_ws s).
  rewrite (skip_ws_float _ _ Hb).
  erewrite scan_items_last; [|apply Hsnd; eexists _, _; split; [done|by right]].
  reflexivity.
Qed.

Lemma py_join_map_cons {A} (sep : string) (f : A → string) (a b : A) (l : list A) :
  py_join sep (map f (a :: b :: l)) = f a +:+ sep +:+ py_join sep (map f (b :: l)).
Proof. reflexivity. Qed.

Lemma points_text_head (p : F * F) (ps : list (F * F)) (rest : string) :
  ∃ r, py_join ", " (map str_point (p :: ps)) +:+ rest = String "[" r.
Proof.
  destruct ps as [|p' ps].
  - simpl map. simpl py_join. rewrite str_point_text. eauto.
  - rewrite py_join_map_cons, app_assoc_text, str_point_text. eauto.
Qed.

Lemma scan_items_points (ps : list (F * F)) :
  ∀ (p : F * F) (fuel : nat) (values : list (json F)) (rest : string),
    Forall point_prints_as_json (p :: ps) → (length ps + 5 ≤ fuel)%nat →
    scan_items fuel (py_join ", " (map str_point (p :: ps)) +:+ String "]" rest) values
    = Ok (JArray (values ++ map point_json (p :: ps)), rest).
Proof.
  induction ps as [|p' ps IH]; intros p fuel values rest Hok Hfuel;
    (destruct fuel as [|n]; [simpl in Hfuel; lia|]);
    apply Forall_cons in Hok as [Hp Hps].
  - simpl map. simpl py_join.
    erewrite scan_items_last; [reflexivity|].
    apply scan_once_point; [done | simpl in Hfuel; lia].
  - rewrite py_join_map_cons, !app_assoc_text.
    change (", " +:+ ?s) with (String "," (String " " s)).
    erewrite scan_items_next;
      [|apply scan_once_point; [done | simpl in Hfuel; lia]].
    change (skip_ws (String " " ?s)) with (skip_ws s).
    destruct (points_text_head p' ps (String "]" rest)) as [r Hr].
    rewrite Hr. change (skip_ws (String "[" r)) with (String "[" r). rewrite <- Hr.
    rewrite IH; [|done | simpl in Hfuel; lia].
    by rewrite <- app_assoc.
Qed.

Lemma str_polygon_text (ring : list (F * F)) (rest : string) :
  str_polygon ring +:+ rest
  = String "[" (py_join ", " (map str_point ring) +:+ String "]" rest).
Proof.
  unfold str_polygon, str_list.
  repeat (progress rewrite ?app_assoc_text, ?app_cons, ?app_empty_l).
  reflexivity.
Qed.

Lemma scan_once_ring (ring : list (F * F)) (rest : string) (fuel : nat) :
  Forall point_prints_as_json ring → (ring_fuel ring ≤ fuel)%nat →
  scan_once fuel (str_polygon ring +:+ rest) = Ok (ring_json ring, rest).
Proof.
  intros Hok Hfuel. rewrite str_polygon_text.
  destruct fuel as [|n]; [destruct ring; simpl in Hfuel; lia|].
  destruct ring as [|p ps].
  - apply scan_once_empty.
  - destruct (points_text_head p ps (String "]" rest)) as [r Hr].
    rewrite Hr, scan_once_open by done. rewrite <- Hr.
    rewrite scan_items_points; [done | done | simpl in Hfuel; lia].
Qed.

Lemma append_holes_text (mp_str : string) (holes : list (list (F * F))) :
  append_holes mp_str holes = mp_str +:+ holes_text holes.
Proof.
  revert mp_str. induction holes as [|hole rest IH]; intros mp_str; simpl.
  - by rewrite app_empty_r.
  - by rewrite IH, !app_assoc_text.
Qed.

Lemma scan_items_rings (holes : list (list (F * F))) :
  ∀ (ring : list (F * F)) (fuel : nat) (values : list (json F)) (rest : string),
    Forall (Forall point_prints_as_json) (ring :: holes) →
    (rings_fuel (ring :: holes) ≤ fuel)%nat →
    scan_items fuel (str_polygon ring +:+ holes_text holes +:+ String "]" rest) values
    = Ok (JArray (values ++ map ring_json (ring :: holes)), rest).
Proof.
  induction holes as [|hole holes IH]; intros ring fuel values rest Hok Hfuel;
    (destruct fuel as [|n]; [simpl in Hfuel; lia|]);
    apply Forall_cons in Hok as [Hr Hhs].
  - simpl holes_text. rewrite app_empty_l.
    erewrite scan_items_last; [reflexivity|].
    apply scan_once_ring; [done | simpl in Hfuel; lia].
  - simpl holes_text. rewrite !app_assoc_text.
    change ("," +:+ ?s) with (String "," s).
    erewrite scan_items_next;
      [|apply scan_once_ring; [done | simpl in Hfuel; lia]].
    rewrite (str_polygon_text hole).
    change (skip_ws (String "[" ?r)) with (String "[" r).
    rewrite <- (str_polygon_text hole).
    rewrite IH; [|done | simpl in Hfuel |- *; lia].
    by rewrite <- app_assoc.
Qed.

Lemma str_point_length (point : F * F) : (4 ≤ String.length (str_point point))%nat.
Proof.
  rewrite <- (app_empty_r (str_point point)), str_point_text.
  simpl. rewrite !app_length_text. simpl. rewrite app_length_text. simpl. lia.
Qed.

Lemma points_text_length (p : F * F) (ps : list (F * F)) :
  (4 + 6 * length ps ≤ String.length (py_join ", " (map str_point (p :: ps))))%nat.
Proof.
  revert p. induction ps as [|p' ps IH]; intros p.
  - change (py_join ", " (map str_point [p])) with (str_point p).
    pose proof (str_point_length p). simpl length. lia.
  - rewrite py_join_map_cons, !app_length_text.
    pose proof (str_point_length p). specialize (IH p').
    change (String.length ", ") with 2%nat.
    change (length (p' :: ps)) with (S (length ps)). lia.
Qed.

Lemma str_polygon_length (ring : list (F * F)) :
  (ring_fuel ring ≤ String.length (str_polygon ring) + 1
   ∧ 2 ≤ String.length (str_polygon ring))%nat.
Proof.
  rewrite <- (app_empty_r (str_polygon ring)), str_polygon_text.
  simpl String.length. rewrite app_length_text. simpl String.length.
  destruct ring as [|p ps]; [simpl; lia|].
  pose proof (points_text_length p ps). simpl ring_fuel. lia.
Qed.

Lemma rings_text_length (holes : list (list (F * F))) :
  ∀ ring : list (F * F),
    (rings_fuel (ring :: holes)
     ≤ String.length (str_polygon ring +:+ holes_text holes) + 2)%nat.
Proof.
  induction holes as [|hole holes IH]; intros ring;
    pose proof (str_polygon_length ring); rewrite app_length_text.
  - simpl rings_fuel. change (String.length (holes_text [])) with 0%nat. lia.
  - specialize (IH hole).
    change (holes_text (hole :: holes))
      with (String "," (str_polygon hole +:+ holes_text holes)).
    change (String.length (String "," ?s)) with (S (String.length s)).
    change (rings_fuel (ring :: hole :: holes))
      with (Nat.max (S (ring_fuel ring)) (S (rings_fuel (hole :: holes)))).
    lia.
Qed.

Lemma json_loads_multi_polygon (polygon : list (F * F)) (holes : list (list (F * F))) :
  Forall point_prints_as_json polygon →
  Forall (Forall point_prints_as_json) holes →
  json_loads (_polygon_and_holes_to_multi_polygon polygon holes)
  = Ok (JArray (ring_json polygon :: map ring_json holes)).
Proof.
  intros Hp Hh. unfold _polygon_and_holes_to_multi_polygon, json_loads.
  rewrite append_holes_text.
  set (text := str_polygon polygon +:+ holes_text holes).
  assert ("[" +:+ text +:+ "]" = String "[" (text +:+ String "]" EmptyString)) as ->
    by done.
  change (skip_ws (String "[" ?r)) with (String "[" r).
  assert (rings_fuel (polygon :: holes)
          ≤ String.length (String "[" (text +:+ String "]" EmptyString)))%nat as Hfuel.
  { pose proof (rings_text_length holes polygon) as Hlen. fold text in Hlen.
    change (String.length (String "[" ?r)) with (S (String.length r)).
    rewrite app_length_text.
    change (String.length (String "]" EmptyString)) with 1%nat. lia. }
  revert Hfuel. generalize (String.length (String "[" (text +:+ String "]" EmptyString))).
  intros fuel Hfuel. subst text. rewrite app_assoc_text.
  rewrite (str_polygon_text polygon), scan_once_open by done.
  rewrite <- (str_polygon_text polygon).
  rewrite scan_items_rings; [done | by constructor | done].
Qed.

End JsonFacts.

Section JsonTheorems.
Context {F : Type} `{PyFloat F}.

(** C10.  For an outer ring and holes whose coordinates print as JSON
    numbers that read back (as every finite float does), [json.loads]
    of the MultiPolygon coordinate string is the list of the outer
    ring followed by the holes in their order, each ring the list of
    its points and each point the two-element list of its longitude
    and latitude. *)
Theorem multi_polygon_json_round_trip (polygon : list (F * F))
    (holes : list (list (F * F))) :
  Forall point_prints_as_json polygon →
  Forall (Forall point_prints_as_json) holes →
  json_loads (_polygon_and_holes_to_multi_polygon polygon holes)
  = Ok (JArray (ring_json polygon :: map ring_json holes)).
Proof.
  intros Hp Hh. by apply json_loads_multi_polygon.
Qed.

End JsonTheorems.

(** A float of the examples prints as JSON: by computation. *)
Ltac prints_as_json_by_computation :=
  repeat split; vm_compute; reflexivity.

(** An outer ring of two points, a hole of one point and an empty
    hole, on binary64 numbers. *)
Lemma multi_polygon_json_round_trip_witness :
  json_loads (_polygon_and_holes_to_multi_polygon
                [(-105, 40); (-104.25, 41.5)]%float
                [[(-104.8125, 40.375)]; []]%float)
  = Ok (JArray [JArray [JArray [JFloat (-105); JFloat 40];
                        JArray [JFloat (-104.25); JFloat 41.5]];
                JArray [JArray [JFloat (-104.8125); JFloat 40.375]];
                JArray []])%float.
Proof.
  apply (multi_polygon_json_round_trip
           [(-105, 40); (-104.25, 41.5)]%float [[(-104.8125, 40.375)]; []]%float).
  - repeat (apply Forall_cons_2 || apply Forall_nil_2); prints_as_json_by_computation.
  - repeat (apply Forall_cons_2 || apply Forall_nil_2); prints_as_json_by_computation.
Defined.

(** ** The features of a conversion *)

Section FeatureFacts.
Context {F : Type} `{PyFloat F}.

Lemma good_ring (grid_lat grid_lon : ndarray F) (ring : list (F * F)) :
  Forall (good_point grid_lat grid_lon) ring →
  ∃ out, _polygon_to_coord_array grid_lat grid_lon ring = Ok out
         ∧ Forall2 (maps_to grid_lat grid_lon) ring out
         ∧ Forall point_prints_as_json out.
Proof.
  intros Hgood.
  assert (∃ out, Forall2 (maps_to grid_lat grid_lon) ring out
                 ∧ Forall point_prints_as_json out) as (out & Hm & Hp).
  { induction Hgood as [|point rest (q & Hq & Hj) _ (out & Hm & Hp)].
    - exists []. split; constructor.
    - exists (q :: out). split; by constructor. }
  exists out. split; [by apply polygon_to_coord_array_spec | done].
Qed.

Lemma good_holes (grid_lat grid_lon : ndarray F) (holes : list (list (F * F))) :
  Forall (Forall (good_point grid_lat grid_lon)) holes →
  ∃ out, holes_to_coord_arrays grid_lat grid_lon holes = Ok out
         ∧ Forall2 (Forall2 (maps_to grid_lat grid_lon)) holes out
         ∧ Forall (Forall point_prints_as_json) out.
Proof.
  induction 1 as [|hole rest Hhole _ (out & Hout & Hm & Hp)]; simpl.
  - exists []. repeat split; constructor.
  - destruct (good_ring _ _ _ Hhole) as (h & Hh & Hhm & Hhp).
    rewrite Hh, Hout. simpl. exists (h :: out). repeat split; by constructor.
Qed.

(** The inner loop appends one feature per path with polygons, in
    the order of the paths. *)
Lemma paths_loop_features (grid_lat grid_lon : ndarray F) (colour : string)
    (paths : list (@Path F)) :
  Forall (Forall (Forall (good_point grid_lat grid_lon))) paths →
  ∀ features : list (@Feature F),
    ∃ added,
      paths_loop grid_lat grid_lon colour paths features = Ok (features ++ added)%list
      ∧ Forall2 (path_feature grid_lat grid_lon colour)
          (List.filter has_polygons paths) added.
Proof.
  induction 1 as [|path rest Hpath _ IH]; intros features; simpl.
  - exists []. split; [by rewrite app_nil_r | constructor].
  - destruct path as [|first others]; simpl.
    + apply IH.
    + apply Forall_cons in Hpath as [Hfirst Hothers].
      destruct (good_ring _ _ _ Hfirst) as (outer & -> & Hom & Hop).
      destruct (good_holes _ _ _ Hothers) as (holes & -> & Hhm & Hhp). simpl.
      rewrite (json_loads_multi_polygon outer holes Hop Hhp). simpl.
      destruct (IH (features ++ [make_feature
                      (JArray (ring_json outer :: map ring_json holes)) colour])%list)
        as (added & -> & Hadded).
      eexists (_ :: added). split; [by rewrite <- app_assoc|].
      constructor; [|done]. by exists first, others, outer, holes.
Qed.

(** The outer loop: band after band, each with the colour of its
    index. *)
Lemma collections_loop_features (rt : Runtime) (grid_lat grid_lon : ndarray F)
    (colours : list (list (F * F * F * F))) (bands : list (list (@Path F))) :
  Forall (Forall (Forall (Forall (good_point grid_lat grid_lon)))) bands →
  ∀ (i : Z) (features : list (@Feature F)),
    (∀ k, 0 <= k < Z.of_nat (length bands) →
          is_ok (band_colour rt colours (i + k)) = true) →
    ∃ added,
      collections_loop rt grid_lat grid_lon colours i bands features
      = Ok (features ++ added)%list
      ∧ Forall2 (fun ip feature =>
                   ∃ colour, band_colour rt colours (fst ip) = Ok colour
                             ∧ path_feature grid_lat grid_lon colour (snd ip) feature)
          (numbered_paths i bands) added.
Proof.
  induction 1 as [|band rest Hband _ IH]; intros i features Hcol; simpl.
  - exists []. split; [by rewrite app_nil_r | constructor].
  - pose proof (Hcol 0 ltac:(simpl length; lia)) as Hc0.
    rewrite Z.add_0_r in Hc0. unfold band_colour in Hc0 |- *.
    destruct (py_index colours i) as [row|] eqn:Erow; [|done]. simpl in Hc0 |- *.
    destruct (py_index row 0) as [rgba|] eqn:Ergba; [|done]. simpl.
    destruct (paths_loop_features grid_lat grid_lon (colors_rgb2hex rt rgba) band
                Hband features) as (added1 & -> & Hadded1). simpl.
    destruct (IH (i + 1) (features ++ added1)%list) as (added2 & -> & Hadded2).
    { intros k Hk. replace (i + 1 + k) with (i + (k + 1)) by lia.
      apply Hcol. simpl length. lia. }
    exists (added1 ++ added2)%list. split; [by rewrite <- app_assoc|].
    apply Forall2_app; [|done].
    apply Forall2_fmap_l. eapply Forall2_impl; [exact Hadded1|].
    intros path feature Hpf. simpl. exists (colors_rgb2hex rt rgba).
    split; [|done]. unfold band_colour. by rewrite Erow; simpl; rewrite Ergba.
Qed.

Lemma numbered_paths_length (bands : list (list (@Path F))) (i : Z) :
  length (numbered_paths i bands)
  = sum_list (map (fun band => length (List.filter has_polygons band)) bands).
Proof.
  revert i. induction bands as [|band rest IH]; intros i; simpl; [done|].
  by rewrite length_app, length_map, IH.
Qed.

(** The paths that give a feature are the paths with polygons, band
    after band. *)
Lemma numbered_paths_paths (bands : list (list (@Path F))) (i : Z) :
  map snd (numbered_paths i bands) = List.filter has_polygons (concat bands).
Proof.
  revert i. induction bands as [|band rest IH]; intros i; simpl; [done|].
  rewrite map_app, List.filter_app, IH, map_map. simpl. by rewrite map_id.
Qed.

(** Among paths whose polygons all have points, those with polygons
    are those whose outer ring has points. *)
Lemma has_polygons_outer_ring (paths : list (@Path F)) :
  Forall (Forall (fun polygon : @Polygon F => polygon ≠ [])) paths →
  List.filter has_polygons paths
  = List.filter (fun path => negb (Nat.eqb (outer_ring_points path) 0)) paths.
Proof.
  induction 1 as [|path rest Hpath _ IH]; simpl; [done|].
  rewrite IH. destruct path as [|first others]; simpl; [done|].
  apply Forall_cons in Hpath as [Hfirst _].
  destruct first; [done | reflexivity].
Qed.

End FeatureFacts.

Section FeatureTheorems.
Context {F : Type} `{PyFloat F}.

(** C6.  When the contouring library has answered and every vertex
    maps to a point that prints as JSON, the conversion builds a
    document with one feature per path that has polygons: their number
    is the sum over the bands of the number of such paths, and they
    follow the bands by index and, within a band, the paths in their
    order; each feature has the geometry of its path and the fill
    colour of the band it comes from. *)
Theorem features_follow_bands_and_paths (rt : Runtime) (self : @GeoJson F)
    (grid grid_lat grid_lon : ndarray F) (levels : list F) (contours : QuadContourSet) :
  contour_levels self = Ok levels →
  pyplot_contourf rt grid levels (palette self) = Ok contours →
  (∀ i, 0 <= i < Z.of_nat (length (collections contours)) →
        is_ok (band_colour rt (tcolors contours) i) = true) →
  Forall (Forall (Forall (Forall (good_point grid_lat grid_lon))))
    (collections contours) →
  ∃ doc,
    make_document rt self grid grid_lat grid_lon = Ok doc
    ∧ length (features doc)
      = sum_list (map (fun band => length (List.filter has_polygons band))
                    (collections contours))
    ∧ Forall2 (fun ip feature =>
                 ∃ colour, band_colour rt (tcolors contours) (fst ip) = Ok colour
                           ∧ path_feature grid_lat grid_lon colour (snd ip) feature
                           ∧ properties feature !! "fill" = Some colour)
        (numbered_paths 0 (collections contours)) (features doc).
Proof.
  intros Hlevels Hcontours Hcol Hgood. unfold make_document.
  rewrite Hlevels. simpl. rewrite Hcontours. simpl.
  destruct (collections_loop_features rt grid_lat grid_lon (tcolors contours)
              (collections contours) Hgood 0 []) as (fs & -> & Hfs).
  { intros k Hk. rewrite Z.add_0_l. by apply Hcol. }
  simpl. eexists. split; [reflexivity|]. simpl. split.
  - rewrite <- (numbered_paths_length _ 0). symmetry. by eapply Forall2_length.
  - eapply Forall2_impl; [exact Hfs|].
    intros ip feature (colour & Hc & Hpf). exists colour. repeat split; try done.
    destruct Hpf as (first & others & outer & holes & _ & _ & _ & ->).
    simpl. apply lookup_singleton_eq.
Qed.

(** C3.  On what the contouring library returns, where no polygon is
    without points, a path whose outer ring has no point, which is a
    path without polygons, is skipped: the features of the document
    are, in their order, those of the paths whose outer ring has at
    least one point, and the outer ring of each has as many points as
    the outer ring of its path.  So every feature of the document has
    an outer ring of at least one point. *)
Theorem outer_ring_of_every_feature (rt : Runtime) (self : @GeoJson F)
    (grid grid_lat grid_lon : ndarray F) (levels : list F) (contours : QuadContourSet) :
  contour_levels self = Ok levels →
  pyplot_contourf rt grid levels (palette self) = Ok contours →
  (∀ i, 0 <= i < Z.of_nat (length (collections contours)) →
        is_ok (band_colour rt (tcolors contours) i) = true) →
  Forall (Forall (Forall (Forall (good_point grid_lat grid_lon))))
    (collections contours) →
  receivable contours →
  ∃ doc,
    make_document rt self grid grid_lat grid_lon = Ok doc
    ∧ Forall2 (fun path feature =>
                 outer_ring_size feature = Some (outer_ring_points path))
        (List.filter (fun path => negb (Nat.eqb (outer_ring_points path) 0))
           (concat (collections contours)))
        (features doc)
    ∧ Forall (fun feature => ∃ n, outer_ring_size feature = Some n ∧ (1 ≤ n)%nat)
        (features doc).
Proof.
  intros Hlevels Hcontours Hcol Hgood Hrings. unfold make_document.
  rewrite Hlevels. simpl. rewrite Hcontours. simpl.
  destruct (collections_loop_features rt grid_lat grid_lon (tcolors contours)
              (collections contours) Hgood 0 []) as (fs & -> & Hfs).
  { intros k Hk. rewrite Z.add_0_l. by apply Hcol. }
  simpl. eexists. split; [reflexivity|]. simpl.
  assert (Forall2 (fun path feature =>
                     outer_ring_size feature = Some (outer_ring_points path))
            (List.filter (fun path => negb (Nat.eqb (outer_ring_points path) 0))
               (concat (collections contours))) fs) as Hsizes.
  { rewrite <- has_polygons_outer_ring by (by apply Forall_concat).
    rewrite <- (numbered_paths_paths _ 0). apply Forall2_fmap_l.
    eapply Forall2_impl; [exact Hfs|].
    intros [i path] feature (colour & _ & first & others & outer & holes
                             & Hpath & Hom & _ & ->).
    simpl in *. subst path.
    unfold outer_ring_size, outer_ring_points, ring_json. simpl.
    rewrite length_map. f_equal. symmetry. by eapply Forall2_length. }
  split; [exact Hsizes|].
  assert (Forall (fun path : @Path F => (1 ≤ outer_ring_points path)%nat)
            (List.filter (fun path => negb (Nat.eqb (outer_ring_points path) 0))
               (concat (collections contours)))) as Hne.
  { apply List.Forall_forall. intros path Hin. apply filter_In in Hin as [_ Hnz].
    destruct (outer_ring_points path); [done | lia]. }
  clear Hfs. revert Hsizes Hne.
  generalize (List.filter (fun path : @Path F => negb (Nat.eqb (outer_ring_points path) 0))
                (concat (collections contours))).
  intros paths Hsizes.
  induction Hsizes as [|path feature paths fs' Hsize _ IH]; intros Hne; [constructor|].
  apply Forall_cons in Hne as [Hpath Hpaths].
  constructor; [|by apply IH].
  by exists (outer_ring_points path).
Qed.

End FeatureTheorems.

(** Every vertex of the example maps to a point that prints as JSON:
    by computation. *)
Ltac good_points_by_computation :=
  repeat first
    [ apply Forall_nil_2
    | apply Forall_cons_2
    | match goal with
      | |- good_point ?gl ?gn ?p =>
          let r := eval vm_compute in (_grid_to_lonlat gl gn (fst p) (snd p)) in
          match r with
          | Ok ?q => exists q; split;
                     [vm_compute; reflexivity | prints_as_json_by_computation]
          end
      end ].

(** The example: two bands, a path without polygons in the first;
    two features. *)
Lemma features_follow_bands_and_paths_witness :
  ∃ doc,
    make_document Example.runtime Example.converter (Example.field 1 2 3 4)
      Example.grid_lat Example.grid_lon = Ok doc
    ∧ length (features doc) = 2%nat.
Proof.
  destruct (features_follow_bands_and_paths Example.runtime Example.converter
              (Example.field 1 2 3 4) Example.grid_lat Example.grid_lon
              [0; 0.5; 1; 1.5]%float Example.contours)
    as (doc & Hdoc & Hlen & _).
  - vm_compute; reflexivity.
  - reflexivity.
  - intros i Hi. simpl in Hi.
    assert (i = 0 ∨ i = 1) as [-> | ->] by lia; reflexivity.
  - unfold Example.contours; simpl collections. good_points_by_computation.
  - exists doc. split; [exact Hdoc | exact Hlen].
Defined.

Lemma outer_ring_of_every_feature_witness :
  ∃ doc,
    make_document Example.runtime Example.converter (Example.field 1 2 3 4)
      Example.grid_lat Example.grid_lon = Ok doc
    ∧ length (features doc) = 2%nat
    ∧ Forall (fun feature => ∃ n, outer_ring_size feature = Some n ∧ (1 ≤ n)%nat)
        (features doc).
Proof.
  destruct (outer_ring_of_every_feature Example.runtime Example.converter
              (Example.field 1 2 3 4) Example.grid_lat Example.grid_lon
              [0; 0.5; 1; 1.5]%float Example.contours)
    as (doc & Hdoc & Hpaths & Hsizes).
  - vm_compute; reflexivity.
  - reflexivity.
  - intros i Hi. simpl in Hi.
    assert (i = 0 ∨ i = 1) as [-> | ->] by lia; reflexivity.
  - unfold Example.contours; simpl collections. good_points_by_computation.
  - unfold receivable, Example.contours; simpl collections.
    repeat (apply Forall_cons_2 || apply Forall_nil_2); discriminate.
  - exists doc. split; [exact Hdoc|]. split; [|exact Hsizes].
    apply Forall2_length in Hpaths. rewrite <- Hpaths. reflexivity.
Defined.

(** ** Batch mode *)

Lemma wait_results_ok {A} (futures : list (result A)) :
  wait_results futures = Ok tt ↔ Forall (fun o => is_ok o = true) futures.
Proof.
  induction futures as [|future rest IH]; simpl.
  - split; [constructor | done].
  - destruct future as [a|e]; simpl.
    + rewrite IH. split; [by constructor | by inversion 1].
    + split; [done | by inversion 1].
Qed.

Lemma wait_results_raise {A} (futures : list (result A)) (e : exn) :
  wait_results futures = Raise e ↔
  ∃ before after, futures = (before ++ Raise e :: after)%list
                  ∧ Forall (fun o => is_ok o = true) before.
Proof.
  induction futures as [|future rest IH]; simpl.
  - split; [done|]. intros (before & after & Heq & _). by destruct before.
  - destruct future as [a|e']; simpl.
    + rewrite IH. split.
      * intros (before & after & -> & Hb). exists (Ok a :: before), after.
        split; [done | by constructor].
      * intros (before & after & Heq & Hb). destruct before as [|b before].
        -- done.
        -- injection Heq as <- ->. apply Forall_cons in Hb as [_ Hb]. eauto.
    + split.
      * intros [= ->]. exists [], rest. split; [done | constructor].
      * intros (before & after & Heq & Hb). destruct before as [|b before].
        -- by injection Heq as ->.
        -- injection Heq as <- ->. by apply Forall_cons in Hb as [? _].
Qed.

Section BatchFacts.
Context {F : Type} `{PyFloat F}.

(** [convert] removes no file. *)
Lemma convert_keeps_files (rt : Runtime) (self : @GeoJson F) (out_file : option string)
    (w : World) (path : string) :
  is_Some (files w !! path) → is_Some (files (fst (convert rt self out_file w)) !! path).
Proof.
  intros Hsome. unfold convert.
  destruct (String.eqb (file_type self) "grib2");
    [destruct (_read_from_grib rt self) as [[[grid glat] glon]|]
    |destruct (String.eqb (file_type self) "netcdf");
       [destruct (_read_from_netcdf rt self) as [[[grid glat] glon]|]|]];
    simpl; try done;
    (destruct (make_document rt self grid glat glon); simpl; [|done];
     destruct out_file as [p|]; simpl; [|done];
     destruct (can_open_wb rt p); simpl; [|done];
     destruct (file_write rt p _); simpl; rewrite !lookup_insert_is_Some'; auto).
Qed.

(** A call that returns for one of the two file types has written
    its output file. *)
Lemma convert_writes_file (rt : Runtime) (self : @GeoJson F) (path : string)
    (w : World) (v : option (@FeatureCollection F)) :
  file_type self = "grib2" ∨ file_type self = "netcdf" →
  snd (convert rt self (Some path) w) = Ok v →
  is_Some (files (fst (convert rt self (Some path) w)) !! path).
Proof.
  intros Htype. unfold convert.
  assert ((if String.eqb (file_type self) "grib2" then Some (_read_from_grib rt self)
           else if String.eqb (file_type self) "netcdf"
                then Some (_read_from_netcdf rt self) else None)
          = Some (if String.eqb (file_type self) "grib2" then _read_from_grib rt self
                  else _read_from_netcdf rt self)) as ->.
  { destruct Htype as [-> | ->]; reflexivity. }
  destruct (if String.eqb (file_type self) "grib2" then _read_from_grib rt self
            else _read_from_netcdf rt self) as [[[grid glat] glon]|]; simpl; [|done].
  destruct (make_document rt self grid glat glon); simpl; [|done].
  destruct (can_open_wb rt path); simpl; [|done].
  destruct (file_write rt path _); simpl; [|done].
  intros _. rewrite lookup_insert_eq. eauto.
Qed.

Lemma run_pool_length (rt : Runtime) (tasks : list (@Task F)) (w : World) :
  length (snd (run_pool rt tasks w)) = length tasks.
Proof.
  revert w. induction tasks as [|task rest IH]; intros w; simpl; [done|].
  destruct (convert rt (task_converter task) (Some (task_out_file task)) w)
    as [w1 outcome].
  specialize (IH w1). destruct (run_pool rt rest w1) as [w2 outcomes].
  simpl in *. by rewrite IH.
Qed.

Lemma run_pool_keeps_files (rt : Runtime) (tasks : list (@Task F)) (w : World)
    (path : string) :
  is_Some (files w !! path) → is_Some (files (fst (run_pool rt tasks w)) !! path).
Proof.
  revert w. induction tasks as [|task rest IH]; intros w Hsome; simpl; [done|].
  pose proof (convert_keeps_files rt (task_converter task)
                (Some (task_out_file task)) w path Hsome) as Hkeep.
  destruct (convert rt (task_converter task) (Some (task_out_file task)) w)
    as [w1 outcome].
  specialize (IH w1 Hkeep). destruct (run_pool rt rest w1) as [w2 outcomes].
  exact IH.
Qed.

(** The output file of every call that returned is there at the end,
    whatever the other calls did. *)
Lemma run_pool_outputs (rt : Runtime) (tasks : list (@Task F)) (w : World)
    (i : nat) (task : @Task F) (v : option (@FeatureCollection F)) :
  tasks !! i = Some task →
  file_type (task_converter task) = "grib2"
  ∨ file_type (task_converter task) = "netcdf" →
  snd (run_pool rt tasks w) !! i = Some (Ok v) →
  is_Some (files (fst (run_pool rt tasks w)) !! task_out_file task).
Proof.
  revert w i. induction tasks as [|t rest IH]; intros w i Htask Htype; [done|].
  simpl.
  pose proof (convert_writes_file rt (task_converter t) (task_out_file t) w) as Hw.
  destruct (convert rt (task_converter t) (Some (task_out_file t)) w)
    as [w1 outcome] eqn:Ec.
  pose proof (run_pool_keeps_files rt rest w1 (task_out_file task)) as Hkeep.
  specialize (IH w1).
  destruct (run_pool rt rest w1) as [w2 outcomes]. simpl in *.
  destruct i as [|i]; simpl in *.
  - injection Htask as ->. intros [= ->]. apply Hkeep. by eapply Hw.
  - intros Hi. by eapply IH.
Qed.

(** C1, amended.  Every call is submitted before any result is
    awaited and none is cancelled: each runs, and each one that
    returns has written its output file whatever the others did.  But
    the scheduler keeps no record of the calls: it awaits the results
    in the order of submission, returns when all the calls returned,
    and otherwise raises the exception of the first call that raised,
    without looking at the results after it. *)
Theorem batch_raises_first_failure (rt : Runtime) (source kind : string)
    (w : World) (tasks : list (@Task F)) :
  submit_products source kind (geojson_products rt) [] = (tasks, None) →
  let final := fst (run_pool rt tasks w) in
  let outcomes := snd (run_pool rt tasks w) in
  _automate_products rt source kind w = (final, wait_results outcomes)
  ∧ length outcomes = length tasks
  ∧ (wait_results outcomes = Ok tt ↔ Forall (fun o => is_ok o = true) outcomes)
  ∧ (∀ e, wait_results outcomes = Raise e ↔
          ∃ before after, outcomes = (before ++ Raise e :: after)%list
                          ∧ Forall (fun o => is_ok o = true) before)
  ∧ (∀ (i : nat) (task : @Task F) (v : option (@FeatureCollection F)),
       tasks !! i = Some task →
       file_type (task_converter task) = "grib2"
       ∨ file_type (task_converter task) = "netcdf" →
       outcomes !! i = Some (Ok v) →
       is_Some (files final !! task_out_file task)).
Proof.
  intros Hsubmit final outcomes. repeat split.
  - unfold _automate_products. rewrite Hsubmit. subst final outcomes.
    by destruct (run_pool rt tasks w).
  - apply run_pool_length.
  - by apply wait_results_ok.
  - by apply wait_results_ok.
  - by apply wait_results_raise.
  - by apply wait_results_raise.
  - intros i task v. apply run_pool_outputs.
Qed.

End BatchFacts.

(** The products of the example: six calls, all awaited in their
    order. *)
Lemma batch_raises_first_failure_witness :
  let tasks := fst (submit_products "wrfout_d01" "netcdf"
                      (geojson_products Example.runtime) []) in
  _automate_products Example.runtime "wrfout_d01" "netcdf" Example.world
  = (fst (run_pool Example.runtime tasks Example.world),
     wait_results (snd (run_pool Example.runtime tasks Example.world)))
  ∧ length (snd (run_pool Example.runtime tasks Example.world)) = length tasks.
Proof.
  intros tasks.
  destruct (batch_raises_first_failure Example.runtime "wrfout_d01" "netcdf"
              Example.world tasks) as (Hrun & Hlen & _).
  - vm_compute. reflexivity.
  - split; [exact Hrun | exact Hlen].
Defined.

(** C1, as stated, fails: of the six calls of the example one raises
    and five return, and the scheduler raises the exception of that
    one instead of returning. *)
Lemma batch_aborts_on_first_failure :
  snd (run_pool Example.runtime
         (fst (submit_products "wrfout_d01" "netcdf"
                 (geojson_products Example.runtime) [])) Example.world)
  = [Ok None; Ok None; Ok None; Raise IndexError; Ok None; Ok None]
  ∧ snd (_automate_products Example.runtime "wrfout_d01" "netcdf" Example.world)
    = Raise IndexError.
Proof.
  split; vm_compute; reflexivity.
Qed.

(** ** GeoJson._1d_to_2d *)

Lemma py_slice_inside {A} (l : list A) (i x : Z) :
  0 <= i → 0 <= x → i + x <= Z.of_nat (length l) →
  py_slice l i (i + x) = take (Z.to_nat x) (drop (Z.to_nat i) l).
Proof.
  intros Hi Hx Hlen. unfold py_slice, slice_bound.
  destruct (i <? 0) eqn:E1; [lia|]. destruct (i + x <? 0) eqn:E2; [lia|].
  f_equal; [f_equal|f_equal]; lia.
Qed.

Lemma range_length_rows (x y : Z) :
  0 < x → 0 <= y → range_length 0 (x * y) x = y.
Proof.
  intros Hx Hy. unfold range_length.
  destruct (0 <? x) eqn:E; [|lia].
  destruct (0 <? x * y) eqn:E1.
  - assert (0 < y) by nia.
    replace (x * y - 0 - 1) with ((y - 1) * x + (x - 1)) by lia.
    rewrite Z.div_add_l by lia. rewrite Z.div_small by lia. lia.
  - nia.
Qed.

Lemma concat_rows {A} (data : list A) (x n : nat) :
  concat (map (fun k => take x (drop (k * x) data)) (seq 0 n)) = take (n * x) data.
Proof.
  induction n as [|n IH]; [done|].
  rewrite seq_S, map_app, concat_app, IH. simpl.
  rewrite app_nil_r, take_take_drop. f_equal. lia.
Qed.

Section RowsFacts.
Context {F : Type} `{PyFloat F}.

Lemma masked_array_2d_rows (rows : list (list F)) (n : nat) :
  rows ≠ [] → rectangular rows n → masked_array_2d rows = nd_of_rows rows.
Proof.
  intros Hne Hrect. destruct rows as [|row rest]; [done|]. unfold masked_array_2d.
  apply Forall_cons in Hrect as [Hrow Hrest].
  assert (forallb (fun r => Nat.eqb (length r) (length row)) rest = true) as ->; [|done].
  apply forallb_forall. intros r Hr. apply Nat.eqb_eq.
  rewrite Hrow.
  exact (proj1 (List.Forall_forall (fun row : list F => length row = n) rest) Hrest r Hr).
Qed.

Lemma rows_loop_map (data : list F) (x : Z) (indices : list Z) (data2d : list (list F)) :
  rows_loop data x indices data2d
  = (data2d ++ map (fun i => py_slice data i (i + x)) indices)%list.
Proof.
  revert data2d. induction indices as [|i rest IH]; intros data2d; simpl.
  - by rewrite app_nil_r.
  - by rewrite IH, <- app_assoc.
Qed.

(** On [x * y] elements or more, with [x] and [y] positive,
    [_1d_to_2d] makes the array of [y] rows of [x] elements whose
    element [c] of row [r] is element [r * x + c] of the data: row
    after row, the array lists the first [x * y] elements, in their
    order. *)
Theorem one_d_to_2d_rows (data : list F) (x y : Z) :
  0 < x → 0 < y → x * y <= Z.of_nat (length data) →
  ∃ rows,
    _1d_to_2d data x y = Ok (nd_of_rows rows)
    ∧ length rows = Z.to_nat y
    ∧ rectangular rows (Z.to_nat x)
    ∧ (∀ r c, 0 <= r < y → 0 <= c < x →
              cell rows r c = data !! Z.to_nat (r * x + c))
    ∧ concat rows = take (Z.to_nat (x * y)) data.
Proof.
  intros Hx Hy Hlen. unfold _1d_to_2d, py_range.
  destruct (x =? 0) eqn:E; [lia|]. simpl.
  rewrite rows_loop_map, app_nil_l, range_length_rows by lia.
  rewrite map_map.
  set (rows := map (fun k : nat => py_slice data (0 + Z.of_nat k * x)
                                     (0 + Z.of_nat k * x + x))
                 (seq 0 (Z.to_nat y))).
  assert (rows = map (fun k => take (Z.to_nat x) (drop (k * Z.to_nat x) data))
                   (seq 0 (Z.to_nat y))) as Hrows.
  { subst rows. apply map_ext_in. intros k Hk. apply in_seq in Hk.
    rewrite py_slice_inside by nia. do 2 f_equal. nia. }
  assert (rectangular rows (Z.to_nat x)) as Hrect.
  { rewrite Hrows. apply Forall_forall. intros row Hrow.
    apply list_elem_of_In, in_map_iff in Hrow as (k & <- & Hk).
    apply in_seq in Hk. rewrite length_take, length_drop. nia. }
  exists rows. split.
  - f_equal. apply (masked_array_2d_rows rows (Z.to_nat x)); [|exact Hrect].
    intros Hnil. apply (f_equal length) in Hrows.
    rewrite Hnil, length_map, length_seq in Hrows. simpl in Hrows. lia.
  - split; [by rewrite Hrows, length_map, length_seq|]. split; [exact Hrect|].
    rewrite Hrows. split.
    + intros r c Hr Hc. unfold cell.
      destruct (0 <=? r) eqn:E1; [|lia]. destruct (0 <=? c) eqn:E2; [|lia]. simpl.
      rewrite lookup_map, lookup_seq_lt by lia. simpl.
      rewrite lookup_take_lt by lia. rewrite lookup_drop. f_equal. nia.
    + rewrite concat_rows. f_equal. nia.
Qed.

(** A width of 0 makes [_1d_to_2d] raise [ValueError]: the step of
    its range is 0. *)
Theorem one_d_to_2d_zero_width (data : list F) (y : Z) :
  _1d_to_2d data 0 y = Raise ValueError.
Proof. reflexivity. Qed.

End RowsFacts.

Lemma one_d_to_2d_rows_witness :
  _1d_to_2d [1; 2; 3; 4; 5; 6; 7]%float 3 2
  = Ok (nd_of_rows [[1; 2; 3]; [4; 5; 6]]%float).
Proof.
  destruct (one_d_to_2d_rows [1; 2; 3; 4; 5; 6; 7]%float 3 2)
    as (rows & Hrun & Hlen & Hrect & _ & Hconcat).
  - lia.
  - lia.
  - simpl. lia.
  - rewrite Hrun. do 2 f_equal.
    destruct rows as [|r1 [|r2 [|r3 rows]]]; simpl in Hlen; try lia.
    apply Forall_cons in Hrect as [H1 Hrect].
    apply Forall_cons in Hrect as [H2 _].
    destruct r1 as [|a [|b [|c [|d r1]]]]; simpl in H1; try lia.
    destruct r2 as [|a' [|b' [|c' [|d' r2]]]]; simpl in H2; try lia.
    simpl in Hconcat. by injection Hconcat as -> -> -> -> -> ->.
Defined.

(** ** Failures of the mapper and of the ring transform *)

Section FailureFacts.
Context {F : Type} `{PyFloat F}.

(** At a coordinate that is not finite the mapper raises what [int]
    raises, [ValueError] for [nan] and [OverflowError] for an
    infinity, [x] being converted before [y]; the grids are not
    read. *)
Theorem grid_to_lonlat_not_finite (grid_lat grid_lon : ndarray F) (x y : F) :
  match fval x, fval y with
  | NaN, _ => _grid_to_lonlat grid_lat grid_lon x y = Raise ValueError
  | Infinite, _ => _grid_to_lonlat grid_lat grid_lon x y = Raise OverflowError
  | Finite _, NaN => _grid_to_lonlat grid_lat grid_lon x y = Raise ValueError
  | Finite _, Infinite => _grid_to_lonlat grid_lat grid_lon x y = Raise OverflowError
  | Finite _, Finite _ => True
  end.
Proof.
  unfold _grid_to_lonlat, py_int.
  destruct (fval x); [destruct (fval y)|..]; reflexivity.
Qed.

(** The ring transform stops at the first vertex at which the mapper
    raises, and raises the same exception: no ring is returned, and
    the vertices after it are not looked at. *)
Theorem polygon_to_coord_array_first_error (grid_lat grid_lon : ndarray F)
    (before after : list (F * F)) (point : F * F) (e : exn) :
  Forall (mappable grid_lat grid_lon) before →
  _grid_to_lonlat grid_lat grid_lon (fst point) (snd point) = Raise e →
  _polygon_to_coord_array grid_lat grid_lon (before ++ point :: after) = Raise e.
Proof.
  intros Hbefore Hpoint. unfold _polygon_to_coord_array. generalize (@nil (F * F)).
  induction Hbefore as [|p rest Hp _ IH]; intros points; simpl.
  - by rewrite Hpoint.
  - unfold mappable in Hp.
    destruct (_grid_to_lonlat grid_lat grid_lon (fst p) (snd p)); [|done].
    simpl. apply IH.
Qed.

(** ** The contour interval *)

(** When [contour_interval * 10] truncates to 0, as for every
    interval under a tenth, the levels cannot be made: [range] raises
    [ValueError], and so does the conversion once it has read its
    grids; it writes no file. *)
Theorem contour_interval_under_a_tenth (rt : Runtime) (self : @GeoJson F)
    (out_file : option string) (w : World) (lo hi : Z)
    (grid grid_lat grid_lon : ndarray F) :
  py_int (fmul (value_min self) (of_int 10)) = Ok lo →
  py_int (fmul (value_max self) (of_int 10)) = Ok hi →
  py_int (fmul (contour_interval self) (of_int 10)) = Ok 0 →
  file_type self = "netcdf" →
  _read_from_netcdf rt self = Ok (grid, grid_lat, grid_lon) →
  contour_levels self = Raise ValueError
  ∧ convert rt self out_file w
    = (log_line "INFO" ("Converting " +:+ variable self +:+ " to "
                        +:+ str_out_file out_file) w,
       Raise ValueError).
Proof.
  intros Hlo Hhi Hstep Htype Hread.
  assert (contour_levels self = Raise ValueError) as Hlevels.
  { unfold contour_levels. by rewrite Hlo, Hhi, Hstep. }
  split; [done|]. unfold convert, make_document.
  rewrite Htype. simpl. by rewrite Hread, Hlevels.
Qed.

(** ** What convert leaves behind *)

Lemma write_file_twice (path a b : string) (w : World) :
  write_file path b (write_file path a w) = write_file path b w.
Proof. unfold write_file. simpl. f_equal. apply insert_insert_eq. Qed.

(** A call of [convert] in terms of the call without an output file,
    which shows how the reading of the data and the building of the
    document end. *)
Lemma convert_by_document (rt : Runtime) (self : @GeoJson F)
    (out_file : option string) (w : World) :
  convert rt self out_file w
  = let w' := log_line "INFO" ("Converting " +:+ variable self +:+ " to "
                               +:+ str_out_file out_file) w in
    match snd (convert rt self None w) with
    | Raise e => (w', Raise e)
    | Ok None => (log_line "ERROR" (invalid_type_message self) w', Ok None)
    | Ok (Some doc) =>
        match out_file with
        | None => (w', Ok (Some doc))
        | Some path =>
            if can_open_wb rt path
            then match file_write rt path doc with
                 | Written => (write_file path (dumps_gz rt doc) w', Ok None)
                 | WriteRaised e reached => (write_file path reached w', Raise e)
                 end
            else (w', Raise OSError)
        end
    end.
Proof.
  unfold convert.
  destruct (String.eqb (file_type self) "grib2");
    [destruct (_read_from_grib rt self) as [[[grid glat] glon]|]
    |destruct (String.eqb (file_type self) "netcdf");
       [destruct (_read_from_netcdf rt self) as [[[grid glat] glon]|]|]];
    simpl; try done;
    (destruct (make_document rt self grid glat glon) as [doc|]; simpl; [|done];
     destruct out_file as [p|]; simpl; [|done];
     destruct (can_open_wb rt p); simpl; [|done];
     destruct (file_write rt p doc); by rewrite write_file_twice).
Qed.

(** A conversion changes a file only once it has its document.  When
    the reading of the data or the building of the document raises,
    which the call without an output file shows, the call with any
    output file raises the same exception and leaves the files as
    they were: the log has one more line, the one that announces the
    conversion.  And a conversion that raises has either left the
    files as they were, or had its document, had opened its output
    file, which [open] empties, and raised in the writing: the file
    then holds what had reached it and no longer what it held. *)
Theorem convert_failure_writes_only_after_open (rt : Runtime) (self : @GeoJson F)
    (out_file : option string) (w : World) (e : exn) :
  let w' := log_line "INFO" ("Converting " +:+ variable self +:+ " to "
                             +:+ str_out_file out_file) w in
  (snd (convert rt self None w) = Raise e →
   convert rt self out_file w = (w', Raise e))
  ∧ (snd (convert rt self out_file w) = Raise e →
     fst (convert rt self out_file w) = w'
     ∨ ∃ path doc reached,
         out_file = Some path
         ∧ snd (convert rt self None w) = Ok (Some doc)
         ∧ can_open_wb rt path = true
         ∧ file_write rt path doc = WriteRaised e reached
         ∧ fst (convert rt self out_file w) = write_file path reached w').
Proof.
  intros w'. rewrite (convert_by_document rt self out_file w). cbv zeta. fold w'.
  destruct (snd (convert rt self None w)) as [[doc|]|e'].
  - split; [done|]. destruct out_file as [path|]; [|done].
    destruct (can_open_wb rt path) eqn:Eopen; [|by left].
    destruct (file_write rt path doc) as [|e'' reached] eqn:Ewrite; [done|].
    simpl. intros [= ->]. right. by exists path, doc, reached.
  - split; done.
  - split; [by intros [= ->] | by left].
Qed.

Lemma convert_effects (rt : Runtime) (self : @GeoJson F)
    (out_file : option string) (w : World) :
  (∀ path, out_file ≠ Some path →
           files (fst (convert rt self out_file w)) !! path = files w !! path)
  ∧ (∀ doc, snd (convert rt self out_file w) = Ok (Some doc) → out_file = None)
  ∧ log w `prefix_of` log (fst (convert rt self out_file w)).
Proof.
  assert (∀ a b : string * string,
            log w `prefix_of` ((log w ++ [a]) ++ [b])%list) as Hp2
    by (intros a b; rewrite <- app_assoc; by eexists).
  assert (∀ a : string * string, log w `prefix_of` (log w ++ [a])%list) as Hp1
    by (intros a; by eexists).
  rewrite (convert_by_document rt self out_file w). cbv zeta.
  destruct (snd (convert rt self None w)) as [[doc|]|e]; simpl;
    try (by repeat split).
  destruct out_file as [p|]; simpl; [|by repeat split].
  destruct (can_open_wb rt p); simpl; [|by repeat split].
  destruct (file_write rt p doc); simpl;
    (repeat split; [|done|done];
     intros path Hpath; apply lookup_insert_ne; congruence).
Qed.

(** A conversion changes no file other than its output file, and none
    at all when it is given no output file; it returns a document only
    when it is given no output file; and it never removes a line of
    the log. *)
Theorem convert_touches_only_its_output (rt : Runtime) (self : @GeoJson F)
    (out_file : option string) (w : World) :
  (∀ path, out_file ≠ Some path →
           files (fst (convert rt self out_file w)) !! path = files w !! path)
  ∧ (∀ doc, snd (convert rt self out_file w) = Ok (Some doc) → out_file = None)
  ∧ log w `prefix_of` log (fst (convert rt self out_file w)).
Proof.
  destruct (convert_effects rt self out_file w) as (Hfiles & Hdoc & Hlog).
  split; [exact Hfiles|]. split; [exact Hdoc | exact Hlog].
Qed.

(** The loops append well-formed features only. *)
Lemma paths_loop_well_formed (grid_lat grid_lon : ndarray F) (colour : string)
    (paths : list (@Path F)) :
  ∀ features out : list (@Feature F),
    paths_loop grid_lat grid_lon colour paths features = Ok out →
    Forall well_formed_feature features → Forall well_formed_feature out.
Proof.
  induction paths as [|path rest IH]; intros features out; simpl.
  - by intros [= <-].
  - destruct path as [|first others]; [apply IH|].
    destruct (_polygon_to_coord_array grid_lat grid_lon first); simpl; [|done].
    destruct (holes_to_coord_arrays grid_lat grid_lon others); simpl; [|done].
    destruct (json_loads _) as [coords|]; simpl; [|done].
    intros Hrest Hfeatures. eapply IH; [exact Hrest|].
    apply Forall_app. split; [done|]. constructor; [|constructor].
    unfold well_formed_feature, make_feature. simpl. repeat split; eauto.
Qed.

Lemma collections_loop_well_formed (rt : Runtime) (grid_lat grid_lon : ndarray F)
    (colours : list (list (F * F * F * F))) (bands : list (list (@Path F))) :
  ∀ (i : Z) (features out : list (@Feature F)),
    collections_loop rt grid_lat grid_lon colours i bands features = Ok out →
    Forall well_formed_feature features → Forall well_formed_feature out.
Proof.
  induction bands as [|band rest IH]; intros i features out; simpl.
  - by intros [= <-].
  - destruct (py_index colours i) as [row|]; simpl; [|done].
    destruct (py_index row 0) as [rgba|]; simpl; [|done].
    destruct (paths_loop grid_lat grid_lon (colors_rgb2hex rt rgba) band features)
      as [fs|] eqn:E; simpl; [|done].
    intros Hrest Hfeatures. eapply IH; [exact Hrest|].
    by eapply paths_loop_well_formed.
Qed.

(** Every document that a conversion builds is a [FeatureCollection]
    whose features are each a [Feature] with a [MultiPolygon] geometry
    of exactly one polygon and the fill colour as only property. *)
Theorem document_is_well_formed (rt : Runtime) (self : @GeoJson F)
    (grid grid_lat grid_lon : ndarray F) (doc : @FeatureCollection F) :
  make_document rt self grid grid_lat grid_lon = Ok doc →
  doc_type doc = "FeatureCollection"
  ∧ Forall well_formed_feature (features doc).
Proof.
  unfold make_document.
  destruct (contour_levels self) as [levels|]; simpl; [|done].
  destruct (pyplot_contourf rt grid levels (palette self)) as [contours|]; simpl;
    [|done].
  destruct (collections_loop rt grid_lat grid_lon (tcolors contours) 0
              (collections contours) []) as [fs|] eqn:E; simpl; [|done].
  intros [= <-]. simpl. split; [done|].
  eapply collections_loop_well_formed; [exact E | constructor].
Qed.

End FailureFacts.

(** ** The readers *)

Lemma py_index_head {A} (l : list A) (a : A) :
  py_index l 0 = Ok a → head l = Some a.
Proof.
  destruct l as [|b l]; intros Hi; [done|].
  unfold py_index in Hi.
  destruct ((0 <=? _) && _) in Hi; [|done]. simpl in Hi. by injection Hi as ->.
Qed.

Section ReaderErrors.
Context {F : Type} `{PyFloat F}.

Lemma nd_index_nd_map (f : F → F) (a : ndarray F) (i : Z) :
  nd_index (nd_map f a) i = let* b := nd_index a i in Ok (nd_map f b).
Proof.
  destruct a as [v|items]; simpl; [done|]. rewrite py_index_map.
  by destruct (py_index items i).
Qed.

Lemma grid_get_nd_map (f : F → F) (g : ndarray F) (y x : Z) :
  grid_get (nd_map f g) y x = let* v := grid_get g y x in Ok (f v).
Proof.
  unfold grid_get. rewrite nd_index_nd_map.
  destruct (nd_index g y) as [row|]; simpl; [|done].
  rewrite nd_index_nd_map.
  destruct (nd_index row x) as [e|]; simpl; [|done].
  by destruct e.
Qed.

(** What the GRIB2 reader returns: the data of the message of index
    [z_level] (0 when there is none) among those named after the
    variable, in the order of the file; the latitudes of the first
    message named [nlat]; and the longitudes of the first message
    named [elon], each less 360, in the same places. *)
Theorem read_from_grib_result (rt : Runtime) (self : @GeoJson F)
    (grid grid_lat grid_lon : ndarray F) :
  _read_from_grib rt self = Ok (grid, grid_lat, grid_lon) →
  ∃ wrf message nlat elon,
    pygrib_open rt (wrf_file self) = Ok wrf
    ∧ py_index (filter (fun m => shortName m = variable self) wrf)
        (default 0 (z_level self)) = Ok message
    ∧ grid = values message
    ∧ head (filter (fun m => shortName m = "nlat") wrf) = Some nlat
    ∧ grid_lat = values nlat
    ∧ head (filter (fun m => shortName m = "elon") wrf) = Some elon
    ∧ ∀ y x, grid_get grid_lon y x
             = let* v := grid_get (values elon) y x in Ok (fsub v (of_int 360)).
Proof.
  unfold _read_from_grib, grib_select.
  destruct (pygrib_open rt (wrf_file self)) as [wrf|]; simpl; [|done].
  destruct (filter (fun m => shortName m = variable self) wrf) as [|m ms] eqn:Ev;
    simpl; [done|].
  destruct (py_index (m :: ms) _) as [message|] eqn:Em; simpl; [|done].
  destruct (filter (fun m => shortName m = "nlat") wrf) as [|l ls] eqn:El;
    simpl; [done|].
  destruct (py_index (l :: ls) 0) as [nlat|] eqn:Enlat; simpl; [|done].
  destruct (filter (fun m => shortName m = "elon") wrf) as [|o os] eqn:Eo;
    simpl; [done|].
  destruct (py_index (o :: os) 0) as [elon|] eqn:Eelon; simpl; [|done].
  intros [= <- <- <-]. exists wrf, message, nlat, elon.
  apply py_index_head in Enlat, Eelon. simpl in Enlat, Eelon.
  injection Enlat as ->. injection Eelon as ->.
  rewrite El, Eo, Ev. repeat split; try done.
  - rewrite <- Em. f_equal. unfold truthy.
    destruct (z_level self) as [z|]; simpl; [|done].
    destruct (z =? 0) eqn:E; simpl; [|done]. by apply Z.eqb_eq in E.
  - intros y x. apply grid_get_nd_map.
Qed.

(** For a variable that the NetCDF file does not have, the conversion
    raises [IndexError] before any coordinate is read; nothing is
    written. *)
Theorem missing_variable_netcdf (rt : Runtime) (self : @GeoJson F)
    (out_file : option string) (w : World) (wrf : gmap string (ndarray F)) :
  file_type self = "netcdf" →
  netcdf_Dataset rt (wrf_file self) = Ok wrf →
  wrf !! variable self = None →
  convert rt self out_file w
  = (log_line "INFO" ("Converting " +:+ variable self +:+ " to "
                      +:+ str_out_file out_file) w,
     Raise IndexError).
Proof.
  intros Htype Hopen Hvar. unfold convert, _read_from_netcdf, dataset_get.
  rewrite Htype. simpl. by rewrite Hopen; simpl; rewrite Hvar.
Qed.

(** In a GRIB2 file without a message named after the variable, the
    conversion raises [ValueError] at the selection of the messages,
    before any coordinate is read; nothing is written. *)
Theorem missing_variable_grib (rt : Runtime) (self : @GeoJson F)
    (out_file : option string) (w : World) (wrf : list (@GribMessage F)) :
  file_type self = "grib2" →
  pygrib_open rt (wrf_file self) = Ok wrf →
  Forall (fun m => shortName m ≠ variable self) wrf →
  convert rt self out_file w
  = (log_line "INFO" ("Converting " +:+ variable self +:+ " to "
                      +:+ str_out_file out_file) w,
     Raise ValueError).
Proof.
  intros Htype Hopen Hvar. unfold convert, _read_from_grib, grib_select.
  rewrite Htype. simpl. rewrite Hopen. simpl.
  assert (filter (fun m => shortName m = variable self) wrf = []) as Hnone.
  { clear Hopen. induction Hvar as [|m ms Hm _ IH]; [done|].
    rewrite filter_cons_False; [exact IH | exact Hm]. }
  by rewrite Hnone.
Qed.

End ReaderErrors.

(** ** The tasks of a batch *)

Lemma str_int_reads_back (z : Z) : int_of_text (str_int z) = Some z.
Proof.
  unfold int_of_text, str_int.
  assert (Z.to_int z = Decimal.norm (Z.to_int z)) as Hnorm
    by (rewrite <- DecimalZ.to_of; f_equal; symmetry; apply DecimalZ.of_to).
  rewrite NilZero.isi.
  - simpl. f_equal. apply DecimalZ.of_to.
  - intros Heq. rewrite Heq in Hnorm. discriminate Hnorm.
  - intros Heq. rewrite Heq in Hnorm. discriminate Hnorm.
Qed.

Lemma app_cancel_r (s1 s2 t : string) : s1 +:+ t = s2 +:+ t → s1 = s2.
Proof.
  intros Heq.
  assert (String.length s1 = String.length s2) as Hlen.
  { apply (f_equal String.length) in Heq. rewrite !app_length_text in Heq. lia. }
  revert s2 Heq Hlen. induction s1 as [|c s1 IH]; intros [|c' s2] Heq Hlen;
    try done.
  rewrite !app_cons in Heq. injection Heq as -> Heq. f_equal. apply IH; [done|].
  simpl in Hlen. lia.
Qed.

(** Two z-levels of a product never share an output file, and a
    z-level never has the output file of the product without level:
    the file name tells the z-level. *)
Theorem task_file_name_tells_level (wrf_file variable : string) (z z' : Z) :
  (task_file_name wrf_file variable (Some z)
   = task_file_name wrf_file variable (Some z') → z = z')
  ∧ task_file_name wrf_file variable (Some z) ≠ task_file_name wrf_file variable None.
Proof.
  unfold task_file_name. split.
  - intros Heq. apply app_cancel_r in Heq.
    do 4 apply String.app_inj in Heq.
    apply (f_equal int_of_text) in Heq. rewrite !str_int_reads_back in Heq.
    by injection Heq.
  - intros Heq. rewrite !app_assoc_text in Heq.
    do 3 apply String.app_inj in Heq. discriminate Heq.
Qed.

Section TaskFacts.
Context {F : Type} `{PyFloat F}.

Lemma submit_levels_tasks (wrf_file file_type variable : string) (product : @Product F)
    (z_levels : list (option Z)) (futures : list (@Task F)) :
  submit_levels wrf_file file_type variable product z_levels futures
  = (futures ++ map (level_task wrf_file file_type variable product) z_levels)%list.
Proof.
  revert futures. induction z_levels as [|z rest IH]; intros futures; simpl.
  - by rewrite app_nil_r.
  - by rewrite IH, <- app_assoc.
Qed.

Lemma submit_products_prefix (wrf_file file_type : string)
    (products : list (@Product F)) (futures : list (@Task F)) :
  Forall (fun product => is_Some (product_variable product !! file_type)) products →
  ∀ rest,
    submit_products wrf_file file_type (products ++ rest) futures
    = submit_products wrf_file file_type rest
        (futures ++ concat (map (tasks_of wrf_file file_type) products))%list.
Proof.
  intros Hall. revert futures.
  induction Hall as [|product products [variable Hv] _ IH]; intros futures rest; simpl.
  - by rewrite app_nil_r.
  - rewrite Hv, submit_levels_tasks, IH. f_equal.
    rewrite <- app_assoc. do 2 f_equal. unfold tasks_of. by rewrite Hv.
Qed.

(** When every product has a variable for the file type, the batch
    submits, product after product and z-level after z-level, one task
    per z-level of a product, or one task for a product without
    z-levels; each task converts the given file as the given type to
    the file named after the variable and the z-level. *)
Theorem submit_products_tasks (wrf_file file_type : string)
    (products : list (@Product F)) :
  Forall (fun product => is_Some (product_variable product !! file_type)) products →
  submit_products wrf_file file_type products []
  = (concat (map (tasks_of wrf_file file_type) products), None)
  ∧ length (concat (map (tasks_of wrf_file file_type) products))
    = sum_list (map (fun product => length (z_levels_of product)) products).
Proof.
  intros Hall. split.
  - rewrite <- (app_nil_r products) at 1.
    by rewrite (submit_products_prefix _ _ _ [] Hall).
  - induction Hall as [|product products [variable Hv] _ IH]; simpl; [done|].
    rewrite length_app, IH. f_equal.
    unfold tasks_of, product_tasks. by rewrite Hv, length_map.
Qed.

(** A product without a variable for the file type stops the batch
    with [KeyError] while it is submitting: the tasks of the products
    before it have been submitted and run, and no result is awaited,
    so that no exception of a task is raised. *)
Theorem batch_stops_at_missing_file_type (rt : Runtime) (wrf_file file_type : string)
    (w : World) (before after : list (@Product F)) (product : @Product F) :
  geojson_products rt = (before ++ product :: after)%list →
  Forall (fun product => is_Some (product_variable product !! file_type)) before →
  product_variable product !! file_type = None →
  _automate_products rt wrf_file file_type w
  = (fst (run_pool rt (concat (map (tasks_of wrf_file file_type) before)) w),
     Raise (KeyError file_type)).
Proof.
  intros Hproducts Hbefore Hproduct. unfold _automate_products.
  rewrite Hproducts, (submit_products_prefix _ _ _ [] Hbefore). simpl.
  rewrite Hproduct.
  by destruct (run_pool rt (concat (map (tasks_of wrf_file file_type) before)) w).
Qed.

(** ** Manual mode *)

(** [_manual_product] raises [IndexError] before anything is logged
    or read when the value range has fewer than two elements.  It
    prints only when it is given no output file, and then what it
    prints is the document of the conversion and no file is changed. *)
Theorem manual_product_prints_or_writes (rt : Runtime)
    (json_dumps_indent : @FeatureCollection F → string)
    (wrf_file file_type : string) (out_file : option string) (variable : string)
    (value_range : list F) (contour_interval : F) (palette : string)
    (z_level : option Z) (w : World) :
  let run := _manual_product rt json_dumps_indent wrf_file file_type out_file
               variable value_range contour_interval palette z_level w in
  ((length value_range < 2)%nat → run = (w, Raise IndexError))
  ∧ (∀ text, snd run = Ok (Some text) →
       out_file = None
       ∧ files (fst run) = files w
       ∧ ∃ converter doc,
           __init__ wrf_file file_type variable value_range contour_interval
             palette z_level = Ok converter
           ∧ snd (convert rt converter None w) = Ok (Some doc)
           ∧ text = json_dumps_indent doc).
Proof.
  intros run. subst run. unfold _manual_product. split.
  - intros Hlen. unfold __init__.
    destruct value_range as [|a [|b rest]]; simpl in Hlen; try lia; reflexivity.
  - intros text.
    destruct (__init__ wrf_file file_type variable value_range contour_interval
                palette z_level) as [converter|]; simpl; [|done].
    pose proof (convert_effects rt converter out_file w) as (Hfiles & Hdoc & _).
    destruct (convert rt converter out_file w) as [w' [[doc|]|]] eqn:Ec;
      simpl in *; try done.
    intros [= <-]. specialize (Hdoc doc eq_refl). subst out_file.
    repeat split.
    + apply map_eq. intros path. by apply Hfiles.
    + exists converter, doc. by rewrite Ec.
Qed.

End TaskFacts.

(** ** The properties above on the example *)

(** The second vertex is outside the grid: the transform raises at
    it, whatever comes after. *)
Lemma polygon_to_coord_array_first_error_witness :
  _polygon_to_coord_array Example.grid_lat Example.grid_lon
    [(0, 0); (2, 0); (nan, 0)]%float
  = Raise IndexError.
Proof.
  apply (polygon_to_coord_array_first_error Example.grid_lat Example.grid_lon
           [(0, 0)%float] [(nan, 0)%float] (2, 0)%float IndexError).
  - repeat constructor.
  - vm_compute. reflexivity.
Defined.

Lemma contour_interval_under_a_tenth_witness :
  contour_levels Example.fine_converter = Raise ValueError
  ∧ convert Example.runtime Example.fine_converter (Some "out.geojson.gz") Example.world
    = (log_line "INFO" "Converting T2 to out.geojson.gz" Example.world,
       Raise ValueError).
Proof.
  apply (contour_interval_under_a_tenth Example.runtime Example.fine_converter
           (Some "out.geojson.gz") Example.world 0 20
           (Example.field 1 2 3 4) Example.grid_lat Example.grid_lon).
  - reflexivity.
  - reflexivity.
  - reflexivity.
  - reflexivity.
  - reflexivity.
Defined.

(** The variable [Q2] is not in the file: the file of an earlier run
    is left as it was. *)
Lemma convert_failure_writes_only_after_open_witness :
  convert Example.runtime Example.missing_converter (Some "out.geojson.gz")
    Example.earlier_world
  = (log_line "INFO" "Converting Q2 to out.geojson.gz" Example.earlier_world,
     Raise IndexError).
Proof.
  destruct (convert_failure_writes_only_after_open Example.runtime
              Example.missing_converter (Some "out.geojson.gz") Example.earlier_world
              IndexError) as [Hbefore _].
  apply Hbefore. vm_compute. reflexivity.
Defined.

Lemma document_is_well_formed_witness :
  ∃ doc,
    make_document Example.runtime Example.converter (Example.field 1 2 3 4)
      Example.grid_lat Example.grid_lon = Ok doc
    ∧ doc_type doc = "FeatureCollection"
    ∧ Forall well_formed_feature (features doc).
Proof.
  destruct (make_document Example.runtime Example.converter (Example.field 1 2 3 4)
              Example.grid_lat Example.grid_lon) as [doc|e] eqn:E.
  - exists doc. split; [reflexivity|].
    exact (document_is_well_formed Example.runtime Example.converter
             (Example.field 1 2 3 4) Example.grid_lat Example.grid_lon doc E).
  - vm_compute in E. discriminate E.
Defined.

Lemma read_from_grib_result_witness :
  ∃ grid grid_lat grid_lon,
    _read_from_grib Example.runtime Example.grib_converter
    = Ok (grid, grid_lat, grid_lon)
    ∧ grid = Example.field 11 21 31 41
    ∧ grid_get grid_lon 1 0 = Ok (-105.25)%float.
Proof.
  destruct (_read_from_grib Example.runtime Example.grib_converter)
    as [[[grid grid_lat] grid_lon]|e] eqn:E.
  - exists grid, grid_lat, grid_lon. split; [reflexivity|].
    destruct (read_from_grib_result Example.runtime Example.grib_converter
                grid grid_lat grid_lon E)
      as (wrf & message & nlat & elon & Hopen & Hmessage & -> & _ & _ & Helon & Hlon).
    injection Hopen as <-. split.
    + vm_compute in Hmessage. by injection Hmessage as <-.
    + rewrite Hlon. vm_compute in Helon. injection Helon as <-.
      vm_compute. reflexivity.
  - vm_compute in E. discriminate E.
Defined.

Lemma missing_variable_netcdf_witness :
  convert Example.runtime Example.missing_converter None Example.world
  = (log_line "INFO" "Converting Q2 to None" Example.world, Raise IndexError).
Proof.
  apply (missing_variable_netcdf Example.runtime Example.missing_converter None
           Example.world Example.dataset).
  - reflexivity.
  - reflexivity.
  - vm_compute. reflexivity.
Defined.

Lemma missing_variable_grib_witness :
  convert Example.runtime Example.missing_grib_converter None Example.world
  = (log_line "INFO" "Converting q to None" Example.world, Raise ValueError).
Proof.
  apply (missing_variable_grib Example.runtime Example.missing_grib_converter None
           Example.world Example.messages).
  - reflexivity.
  - reflexivity.
  - repeat constructor; discriminate.
Defined.

(** Three products of two z-levels: six tasks. *)
Lemma submit_products_tasks_witness :
  length (fst (submit_products "wrfout_d01" "netcdf"
                 (geojson_products Example.runtime) [])) = 6%nat.
Proof.
  destruct (submit_products_tasks "wrfout_d01" "netcdf"
              (geojson_products Example.runtime)) as [Htasks Hlen].
  - repeat constructor; vm_compute; eauto.
  - rewrite Htasks. unfold fst. rewrite Hlen. reflexivity.
Defined.

(** The second product has no GRIB2 variable: the two tasks of the
    first are submitted and run, and [KeyError] is raised. *)
Lemma batch_stops_at_missing_file_type_witness :
  _automate_products Example.partial_runtime "wrfout_d01.grib2" "grib2" Example.world
  = (fst (run_pool Example.partial_runtime
            (concat (map (tasks_of "wrfout_d01.grib2" "grib2")
                       [Example.product "T" [1; 2]]))
            Example.world),
     Raise (KeyError "grib2")).
Proof.
  apply (batch_stops_at_missing_file_type Example.partial_runtime "wrfout_d01.grib2"
           "grib2" Example.world [Example.product "T" [1; 2]]
           [Example.product "V" [1]] Example.netcdf_only_product).
  - reflexivity.
  - repeat constructor. vm_compute. eauto.
  - vm_compute. reflexivity.
Defined.

(** ** The two output modes *)

Section OutputModes.
Context {F : Type} `{PyFloat F}.


End OutputModes.


(** ** Further instances on the example *)

Lemma grid_to_lonlat_not_finite_witness :
  _grid_to_lonlat Example.grid_lat Example.grid_lon nan 0%float = Raise ValueError
  ∧ _grid_to_lonlat Example.grid_lat Example.grid_lon 0%float infinity
    = Raise OverflowError.
Proof.
  split.
  - exact (grid_to_lonlat_not_finite Example.grid_lat Example.grid_lon nan 0%float).
  - exact (grid_to_lonlat_not_finite Example.grid_lat Example.grid_lon 0%float infinity).
Defined.

Lemma convert_touches_only_its_output_witness :
  files (fst (convert Example.runtime Example.converter (Some "out.geojson.gz")
                Example.world)) !! "other.geojson.gz" = None.
Proof.
  destruct (convert_touches_only_its_output Example.runtime Example.converter
              (Some "out.geojson.gz") Example.world) as (Hfiles & _ & _).
  rewrite Hfiles.
  - reflexivity.
  - discriminate.
Defined.

Lemma task_file_name_tells_level_witness :
  task_file_name "wrfout_d01" "T" (Some 1) ≠ task_file_name "wrfout_d01" "T" (Some 2).
Proof.
  intros Heq.
  destruct (task_file_name_tells_level "wrfout_d01" "T" 1 2) as [Hlevel _].
  specialize (Hlevel Heq). lia.
Defined.

Lemma manual_product_prints_or_writes_witness :
  _manual_product Example.runtime (fun _ => "{}") "wrfout_d01" "netcdf" None "T2"
    [0%float] 0.5%float "jet" None Example.world
  = (Example.world, Raise IndexError).
Proof.
  pose proof (manual_product_prints_or_writes Example.runtime (fun _ => "{}")
                "wrfout_d01" "netcdf" None "T2" [0%float] 0.5%float "jet" None
                Example.world) as Hmanual.
  cbv zeta in Hmanual. destruct Hmanual as [Hshort _].
  apply Hshort. simpl. lia.
Defined.

(** ** The z-levels of a NetCDF variable *)

Lemma py_index_wrap {A} (l : list A) (i : Z) :
  let n := Z.of_nat (length l) in
  (- n <= i < n → ∃ a, l !! Z.to_nat (i mod n) = Some a ∧ py_index l i = Ok a)
  ∧ (i < - n ∨ n <= i → py_index l i = Raise IndexError).
Proof.
  intros n. subst n. unfold py_index.
  set (n := Z.of_nat (length l)).
  set (j := if i <? 0 then i + n else i). split.
  - intros Hi.
    assert (0 <= j < n) as Hj by (subst j; destruct (i <? 0) eqn:E; lia).
    assert (i mod n = j) as ->.
    { subst j. destruct (i <? 0) eqn:E.
      - rewrite <- (Z.mod_add i 1 n) by lia. rewrite Z.mul_1_l.
        apply Z.mod_small. lia.
      - apply Z.mod_small. lia. }
    destruct (0 <=? j) eqn:E1; [|lia]. destruct (j <? n) eqn:E2; [|lia]. simpl.
    destruct (l !! Z.to_nat j) as [a|] eqn:El; [by exists a|].
    apply lookup_ge_None in El. subst n. lia.
  - intros Hi.
    destruct ((0 <=? j) && (j <? n)) eqn:E; [|done].
    apply andb_true_iff in E as [E1 E2].
    subst j. destruct (i <? 0) eqn:E3; lia.
Qed.

Section LevelsOfNetcdf.
Context {F : Type} `{PyFloat F}.

(** For a z-level [z] other than 0 and a variable of [n] levels at
    the first time step, the NetCDF reader returns level [z] when
    [0 < z < n] and level [n + z] when [- n <= z < 0], counting from
    the last as Python does.  For any other [z] it raises what numpy
    raises for the index [z]: [OverflowError] from [2**63] to
    [2**64 - 1], and [IndexError] otherwise.  The later time steps are
    never read. *)
Theorem read_from_netcdf_level (rt : Runtime) (self : @GeoJson F)
    (wrf : gmap string (ndarray F)) (levels later : list (ndarray F))
    (xlat xlong grid_lat grid_lon : ndarray F) (z : Z) :
  netcdf_Dataset rt (wrf_file self) = Ok wrf →
  wrf !! variable self = Some (Axis (Axis levels :: later)) →
  wrf !! "XLAT" = Some xlat → nd_index xlat 0 = Ok grid_lat →
  wrf !! "XLONG" = Some xlong → nd_index xlong 0 = Ok grid_lon →
  z_level self = Some z → z ≠ 0 →
  let n := Z.of_nat (length levels) in
  (- n <= z < n →
   ∃ grid, levels !! Z.to_nat (z mod n) = Some grid
           ∧ _read_from_netcdf rt self = Ok (grid, grid_lat, grid_lon))
  ∧ (z < - n ∨ n <= z →
     _read_from_netcdf rt self
     = Raise (if (9223372036854775808 <=? z) && (z <? 18446744073709551616)
              then OverflowError else IndexError)).
Proof.
  intros Hopen Hvar Hxlat Hlat Hxlong Hlon Hz Hnz n.
  assert (_read_from_netcdf rt self
          = let* grid := nd_index (Axis levels) z in Ok (grid, grid_lat, grid_lon))
    as Hread.
  { unfold _read_from_netcdf, dataset_get. rewrite Hopen. simpl bind.
    rewrite Hvar, Hz. unfold truthy.
    destruct (z =? 0) eqn:E; [lia|]. simpl negb. cbv iota.
    simpl. destruct (py_index levels z) as [grid|]; simpl; [|done].
    by rewrite Hxlat; simpl; rewrite Hlat; simpl; rewrite Hxlong; simpl; rewrite Hlon. }
  rewrite Hread. destruct (py_index_wrap levels z) as [Hin Hout]. split.
  - intros Hi. destruct (Hin Hi) as (grid & Hl & Hgrid). exists grid.
    split; [exact Hl|]. by rewrite (nd_index_ok levels z grid Hgrid).
  - intros Hi. simpl. by rewrite (Hout Hi).
Qed.

End LevelsOfNetcdf.

(** The variable [T] of the example has three levels: z-level [-1]
    reads the last one, and z-level [2**63] raises [OverflowError]. *)
Lemma read_from_netcdf_level_witness :
  _read_from_netcdf Example.runtime (Example.level_converter (-1))
  = Ok (Example.field 12 22 32 42, Example.grid_lat, Example.grid_lon)
  ∧ _read_from_netcdf Example.runtime (Example.level_converter 9223372036854775808)
    = Raise OverflowError.
Proof.
  split.
  - destruct (read_from_netcdf_level Example.runtime (Example.level_converter (-1))
                Example.dataset
                [Example.field 10 20 30 40; Example.field 11 21 31 41;
                 Example.field 12 22 32 42] []
                (Axis [Example.grid_lat]) (Axis [Example.grid_lon])
                Example.grid_lat Example.grid_lon (-1)) as [Hin _].
    + reflexivity.
    + vm_compute. reflexivity.
    + vm_compute. reflexivity.
    + reflexivity.
    + vm_compute. reflexivity.
    + reflexivity.
    + reflexivity.
    + lia.
    + destruct Hin as (grid & Hgrid & Hread); [simpl; lia|].
      rewrite Hread. simpl in Hgrid. by injection Hgrid as <-.
  - destruct (read_from_netcdf_level Example.runtime
                (Example.level_converter 9223372036854775808)
                Example.dataset
                [Example.field 10 20 30 40; Example.field 11 21 31 41;
                 Example.field 12 22 32 42] []
                (Axis [Example.grid_lat]) (Axis [Example.grid_lon])
                Example.grid_lat Example.grid_lon 9223372036854775808) as [_ Hout].
    + reflexivity.
    + vm_compute. reflexivity.
    + vm_compute. reflexivity.
    + reflexivity.
    + vm_compute. reflexivity.
    + reflexivity.
    + reflexivity.
    + lia.
    + rewrite Hout; [reflexivity | right; simpl; lia].
Defined.
